(** * Superlinked: the online categorical-similarity node and the data loader

    A shallow embedding of

    - [superlinked/framework/online/dag/online_categorical_similarity_node.py]
      (class [OnlineCategoricalSimilarityNode]), and
    - [server/runner/executor/app/service/data_loader.py] (class [DataLoader]),

    followed by the properties the specification states about them.

    Python objects are records, methods are functions taking [self] first.
    Code that raises lives in a state-and-exception monad over a [World]
    holding the shared storage and a log of the calls made to the
    collaborators, so that "no storage read" and "no parent evaluation" are
    statements about that log. *)

From stdpp Require Import base option list strings gmap.

Set Default Proof Using "Type".
Set Warnings "-clear-no-such-hyp".

(** ** Exceptions *)

Inductive Exception : Type :=
| MissingStoredResultError
| ConfigurationError
| TypeError (msg : string)
| InvalidStateError
| CancelledError
| OtherError (type_name msg : string).

(** [str(exc)] *)
Definition exc_str (e : Exception) : string :=
  match e with
  | MissingStoredResultError => "MissingStoredResultError"
  | ConfigurationError => "ConfigurationError"
  | TypeError msg => msg
  | InvalidStateError => "Exception is not set."
  | CancelledError => ""
  | OtherError _ msg => msg
  end.

Inductive Result (A : Type) : Type :=
| Ok (a : A)
| Raise (e : Exception).
Arguments Ok {A} a.
Arguments Raise {A} e.

(** ** Stateful computations that may raise

    [Eff S A] is a computation over a state [S] that returns an [A] or raises;
    the state reached when the exception is raised is kept, as it is in
    Python. *)
Definition Eff (S A : Type) : Type := S -> S * Result A.

Definition ret {S A} (a : A) : Eff S A := fun s => (s, Ok a).

Definition raise {S A} (e : Exception) : Eff S A := fun s => (s, Raise e).

Definition bind {S A B} (c : Eff S A) (k : A -> Eff S B) : Eff S B :=
  fun s =>
    match c s with
    | (s', Ok a) => k a s'
    | (s', Raise e) => (s', Raise e)
    end.

Notation "'let!' x ':=' c 'in' k" := (bind c (fun x => k))
  (at level 10, x name, c at level 100, k at level 200).

(** A list comprehension [[f(x) for x in xs]], or a [for] loop, whose body
    may raise: the elements are visited from left to right and the first
    exception ends it. *)
Fixpoint for_each {S A B} (f : A -> Eff S B) (xs : list A) : Eff S (list B) :=
  match xs with
  | [] => ret []
  | x :: xs' =>
      let! y := f x in
      let! ys := for_each f xs' in
      ret (y :: ys)
  end.

(** ** The types the node receives from the rest of the framework

    [ExecutionContext], [ParsedSchema] and the keys of the storage manager are
    classes of modules the node only imports; the node passes their values
    along and never looks inside.  A vector entry is a Python [float], on
    which the node performs no arithmetic. *)
Class Framework : Type := {
  float : Type;
  ExecutionContext : Type;
  ParsedSchema : Type;
  StorageKey : Type;
  StorageKey_eq_dec :: EqDecision StorageKey;
  StorageKey_countable :: Countable StorageKey;
}.

Section Carriers.
Context `{FW : Framework}.

(** [superlinked.framework.common.data_types.Vector] *)
Definition Vector : Type := list float.

(** [EvaluationResult.main] is a single result carrying a [value]
    (the source reads [input_.main.value]). *)
Record SingleEvaluationResult (T : Type) : Type := {
  value : T;
}.

(** Modelled from the spec: [EvaluationResult] is defined in
    [online/dag/evaluation_result.py], which is not among the sources.
    It holds one main value plus an optional mapping of named auxiliary
    values; the node only ever builds it as [EvaluationResult(main)]. *)
Record EvaluationResult (T : Type) : Type := {
  main : SingleEvaluationResult T;
  auxiliary : gmap string (SingleEvaluationResult T);
}.

(** ** The world the evaluation runs in *)

(** Arity policies.  Modelled from the spec: [ParentValidationType] is
    defined in [online/dag/parent_validator.py], which is not among the
    sources; the spec describes it as a small closed set of arity
    policies. *)
Inductive ParentValidationType : Type :=
| Exact (n : nat)
| AtMost (n : nat)
| AtLeast (n : nat)
| Any.

(** What an instrumented storage manager and instrumented parents record. *)
Inductive Event : Type :=
| StorageLoad (key : StorageKey)
| ParentEvaluation (parent_index : nat) (schema : ParsedSchema)
| ParentValidation (policy : ParentValidationType) (parent_count : nat).

Record World : Type := {
  storage : gmap StorageKey Vector;
  events : list Event;
}.

Definition record_event (ev : Event) (w : World) : World :=
  {| storage := storage w; events := events w ++ [ev] |}.

(** Computations of the evaluation engine. *)
Definition M (A : Type) : Type := Eff World A.

Definition emit (ev : Event) : M unit := fun w => (record_event ev w, Ok tt).

Definition get_storage : M (gmap StorageKey Vector) := fun w => (w, Ok (storage w)).
End Carriers.

Arguments value {T} _.
Arguments main {T} _.
Arguments auxiliary {T} _.

(** [EvaluationResult(main)]: the auxiliary values keep their default. *)
Definition new_EvaluationResult {T} (main : SingleEvaluationResult T)
  : EvaluationResult T :=
  {| main := main; auxiliary := ∅ |}.

(** ** [CategoricalSimilarityNode]: the static description of the node

    Modelled from the spec: the class is defined in
    [common/dag/categorical_similarity_node.py], which is not among the
    sources.  The online node reads its [length], its [default_vector] and
    calls [embedding.embed(value, context)]. *)
Module CategoricalSimilarityNode.
Section Node.
Context `{FW : Framework}.

Record CategoricalSimilarityEmbedding : Type := {
  embed : string -> ExecutionContext -> Vector;
}.

Record t : Type := {
  node_id : string;
  length : nat;
  default_vector : Vector;
  embedding : CategoricalSimilarityEmbedding;
}.
End Node.
End CategoricalSimilarityNode.

(** ** [OnlineNode]: the base class

    Modelled from the spec: the class is defined in
    [online/dag/online_node.py], which is not among the sources.  A parent is
    used through [evaluate_next_single] only; the constructor checks the
    number of parents against the arity policy of the node kind and fails
    with a [ConfigurationError] when it is violated. *)
Module OnlineNode.
Section Base.
Context `{FW : Framework}.

Record t : Type := {
  evaluate_next_single :
    ParsedSchema -> ExecutionContext -> M (EvaluationResult string);
}.

Definition satisfies (policy : ParentValidationType) (n : nat) : bool :=
  match policy with
  | Exact k => bool_decide (n = k)
  | AtMost k => bool_decide (n <= k)
  | AtLeast k => bool_decide (k <= n)
  | Any => true
  end.

Definition validate_parents
    (policy : ParentValidationType) (parents : list t) : M unit :=
  let! _ := emit (ParentValidation policy (length parents)) in
  if satisfies policy (length parents) then ret tt
  else raise ConfigurationError.

(** [super().__init__(node, parents, storage_manager, policy)]: the
    attributes are stored by the subclass record; the storage manager,
    a reference shared by all nodes, is the [storage] of the [World]. *)
Definition __init__
    (policy : ParentValidationType) (parents : list t) : M (list t) :=
  let! _ := validate_parents policy parents in
  ret parents.
End Base.
End OnlineNode.

(** ** [OnlineCategoricalSimilarityNode] *)
Module OnlineCategoricalSimilarityNode.
Section Node.
Context `{FW : Framework}.

Record t : Type := {
  node : CategoricalSimilarityNode.t;
  parents : list OnlineNode.t;
}.

(** [ParentValidationType.LESS_THAN_TWO_PARENTS] *)
Definition LESS_THAN_TWO_PARENTS : ParentValidationType := AtMost 1.

(** Methods the node inherits from [OnlineNode] and whose bodies are not
    among the sources: how a storage key is built from the node and the
    schema, and the test for a default-vector pass, which the node calls
    with the whole batch and the context. *)
Class Inherited : Type := {
  storage_key : CategoricalSimilarityNode.t -> ParsedSchema -> StorageKey;
  _should_return_default_vector :
    t -> list ParsedSchema -> ExecutionContext -> bool;
}.
Context `{INH : Inherited}.

Definition __init__
    (node : CategoricalSimilarityNode.t) (parents : list OnlineNode.t)
  : M t :=
  let! parents := OnlineNode.__init__ LESS_THAN_TWO_PARENTS parents in
  ret {| node := node; parents := parents |}.

Definition length (self : t) : nat :=
  CategoricalSimilarityNode.length (node self).

(** Modelled from the spec: [_get_single_evaluation_result] belongs to
    [OnlineNode]; it wraps a value. *)
Definition _get_single_evaluation_result {T} (self : t) (value : T)
  : SingleEvaluationResult T :=
  {| value := value |}.

(** Modelled from the spec: [load_stored_result_or_raise_exception]
    belongs to [OnlineNode].  It attempts [StorageManager.load] on the
    key built from the node and the schema, returns the stored vector
    when there is one and fails with [MissingStoredResultError] when
    there is none. *)
Definition load_stored_result_or_raise_exception
    (self : t) (parsed_schema : ParsedSchema) : M Vector :=
  let key := storage_key (node self) parsed_schema in
  let! _ := emit (StorageLoad key) in
  let! store := get_storage in
  match store !! key with
  | Some stored_result => ret stored_result
  | None => raise MissingStoredResultError
  end.

(** [self.parents[i].evaluate_next_single(parsed_schema, context)], seen
    by the instrumentation. *)
Definition call_evaluate_next_single
    (i : nat) (parent : OnlineNode.t)
    (parsed_schema : ParsedSchema) (context : ExecutionContext)
  : M (EvaluationResult string) :=
  let! _ := emit (ParentEvaluation i parsed_schema) in
  OnlineNode.evaluate_next_single parent parsed_schema context.

Definition evaluate_self_single
    (self : t) (parsed_schema : ParsedSchema) (context : ExecutionContext)
  : M (EvaluationResult Vector) :=
  match parents self with
  | [] =>
      let! stored_result :=
        load_stored_result_or_raise_exception self parsed_schema in
      ret (new_EvaluationResult
             (_get_single_evaluation_result self stored_result))
  | parent0 :: _ =>
      let! input_ :=
        call_evaluate_next_single 0 parent0 parsed_schema context in
      let transformed_input_value :=
        CategoricalSimilarityNode.embed
          (CategoricalSimilarityNode.embedding (node self))
          (value (main input_)) context in
      let main := _get_single_evaluation_result self transformed_input_value in
      ret (new_EvaluationResult main)
  end.

Definition evaluate_self
    (self : t) (parsed_schemas : list ParsedSchema)
    (context : ExecutionContext)
  : M (list (EvaluationResult Vector)) :=
  if _should_return_default_vector self parsed_schemas context then
    ret (map
           (fun _ =>
              new_EvaluationResult
                (_get_single_evaluation_result self
                   (CategoricalSimilarityNode.default_vector (node self))))
           parsed_schemas)
  else
    for_each (fun schema => evaluate_self_single self schema context)
             parsed_schemas.
End Node.
End OnlineCategoricalSimilarityNode.

(** ** [DataLoader] *)
Module DataLoader.

(** [superlinked.framework.dsl.source.data_loader_source.DataFormat] *)
Inductive DataFormat : Type := CSV | FWF | XML | JSON | PARQUET | ORC.

#[global] Instance DataFormat_eq_dec : EqDecision DataFormat.
Proof. solve_decision. Defined.

Definition DataFormat_to_nat (f : DataFormat) : nat :=
  match f with
  | CSV => 0 | FWF => 1 | XML => 2 | JSON => 3 | PARQUET => 4 | ORC => 5
  end.

Definition DataFormat_of_nat (n : nat) : option DataFormat :=
  match n with
  | 0 => Some CSV | 1 => Some FWF | 2 => Some XML | 3 => Some JSON
  | 4 => Some PARQUET | 5 => Some ORC | _ => None
  end.

#[global] Instance DataFormat_countable : Countable DataFormat.
Proof.
  apply (inj_countable DataFormat_to_nat DataFormat_of_nat).
  intros []; reflexivity.
Defined.

(** The configuration of a source: [config.path], [config.format] and
    [config.pandas_read_kwargs] (a dict or [None]). *)
Record DataLoaderConfig : Type := {
  path : string;
  format : DataFormat;
  pandas_read_kwargs : option (gmap string string);
}.

#[global] Instance DataLoaderConfig_eq_dec : EqDecision DataLoaderConfig.
Proof. solve_decision. Defined.

#[global] Instance DataLoaderConfig_countable : Countable DataLoaderConfig.
Proof.
  apply (inj_countable'
           (fun c => (path c, format c, pandas_read_kwargs c))
           (fun '(p, f, k) =>
              {| path := p; format := f; pandas_read_kwargs := k |})).
  intros []; reflexivity.
Defined.

(** Modelled from the spec: [DataLoaderSource] is defined in
    [dsl/source/data_loader_source.py], which is not among the sources, and
    with it the equality that [source in self._data_loader_sources] uses.
    The spec has registration compare sources by exact equality of their
    configuration, so a source is identified by its [config]; the sink
    [source._source] that receives the data is kept in the surroundings,
    under the source. *)
Record DataLoaderSource : Type := {
  config : DataLoaderConfig;
}.

#[global] Instance DataLoaderSource_eq_dec : EqDecision DataLoaderSource.
Proof. solve_decision. Defined.

#[global] Instance DataLoaderSource_countable : Countable DataLoaderSource.
Proof.
  apply (inj_countable' config (fun c => {| config := c |})).
  intros []; reflexivity.
Defined.

(** A [pandas.DataFrame], as its rows. *)
Definition DataFrame : Type := list (list string).

(** What a pandas read function hands back: a data frame, a chunked reader
    ([TextFileReader] or [JsonReader]) that yields chunks and may fail
    after them, or an object of another type. *)
Inductive PandasObject : Type :=
| IsDataFrame (data : DataFrame)
| IsReader (chunks : list DataFrame) (failure : option Exception)
| IsOther (type_repr : string).

(** What surrounds the loader: the application configuration class, the
    values [uuid.uuid4()] produces, call after call, the pandas readers
    (which may raise, for instance on a path that does not exist), and
    whether the logger is enabled for [DEBUG]. *)
Class Surroundings : Type := {
  AppConfig : Type;
  uuid4 : nat -> string;
  debug_enabled : bool;
  read_csv : string -> gmap string string -> Result PandasObject;
  read_fwf : string -> gmap string string -> Result PandasObject;
  read_xml : string -> gmap string string -> Result PandasObject;
  read_json : string -> gmap string string -> Result PandasObject;
  read_parquet : string -> gmap string string -> Result PandasObject;
  read_orc : string -> gmap string string -> Result PandasObject;
}.

(** *** [asyncio.Task]

    [asyncio] is a library, not code of the repository: the task below and
    the event loop further down model its documented behaviour.  A task is
    pending until it is done; a done task was cancelled, holds the exception
    its coroutine raised, or holds its result. *)
Module Task.
Inductive State : Type :=
| Pending
| Cancelled
| Failed (exc : Exception)
| Finished.

(** A task created by [asyncio.create_task(asyncio.to_thread(
    self.__read_and_put_data, source), name=...)]. *)
Record t : Type := {
  get_name : string;
  source : DataLoaderSource;
  state : State;
}.

Definition done (task : t) : bool :=
  match state task with Pending => false | _ => true end.

Definition cancelled (task : t) : bool :=
  match state task with Cancelled => true | _ => false end.

(** [task.exception()] raises on a task that is not done or was
    cancelled. *)
Definition exception (task : t) : Result (option Exception) :=
  match state task with
  | Pending => Raise InvalidStateError
  | Cancelled => Raise CancelledError
  | Failed exc => Ok (Some exc)
  | Finished => Ok None
  end.

Definition with_state (st : State) (task : t) : t :=
  {| get_name := get_name task; source := source task; state := st |}.
End Task.

(** *** Log records *)
Inductive Level : Type := DEBUG | INFO | WARNING | ERROR.

Inductive LogArg : Type :=
| ArgConfig (c : DataLoaderConfig)
| ArgInt (n : nat)
| ArgException (e : Exception).

Record LogRecord : Type := {
  level : Level;
  msg : string;
  arg : LogArg;
}.

Section Loader.
Context `{SUR : Surroundings}.

(** The loader object, followed by the state of its surroundings: what
    was handed to the logger, each sink's received data, the number of
    calls made to [uuid.uuid4], and what [DataFrame.info] printed. *)
Record t : Type := {
  _data_loader_sources : gset DataLoaderSource;
  _app_config : AppConfig;
  _data_loader_tasks : list Task.t;
  logged : list LogRecord;
  sinks : gmap DataLoaderSource (list DataFrame);
  uuid4_calls : nat;
  info_printed : list nat;
}.

Definition __init__ (app_config : AppConfig)
    (sinks : gmap DataLoaderSource (list DataFrame)) : t :=
  {| _data_loader_sources := ∅;
     _app_config := app_config;
     _data_loader_tasks := [];
     logged := [];
     sinks := sinks;
     uuid4_calls := 0;
     info_printed := [] |}.

Definition log (lvl : Level) (m : string) (a : LogArg) (self : t) : t :=
  {| _data_loader_sources := _data_loader_sources self;
     _app_config := _app_config self;
     _data_loader_tasks := _data_loader_tasks self;
     logged := logged self ++ [{| level := lvl; msg := m; arg := a |}];
     sinks := sinks self;
     uuid4_calls := uuid4_calls self;
     info_printed := info_printed self |}.

Definition add_source (source : DataLoaderSource) (self : t) : t :=
  {| _data_loader_sources := _data_loader_sources self ∪ {[source]};
     _app_config := _app_config self;
     _data_loader_tasks := _data_loader_tasks self;
     logged := logged self;
     sinks := sinks self;
     uuid4_calls := uuid4_calls self;
     info_printed := info_printed self |}.

Definition set_tasks (tasks : list Task.t) (self : t) : t :=
  {| _data_loader_sources := _data_loader_sources self;
     _app_config := _app_config self;
     _data_loader_tasks := tasks;
     logged := logged self;
     sinks := sinks self;
     uuid4_calls := uuid4_calls self;
     info_printed := info_printed self |}.

(** [str(uuid.uuid4())] *)
Definition next_uuid (self : t) : string * t :=
  (uuid4 (uuid4_calls self),
   {| _data_loader_sources := _data_loader_sources self;
      _app_config := _app_config self;
      _data_loader_tasks := _data_loader_tasks self;
      logged := logged self;
      sinks := sinks self;
      uuid4_calls := S (uuid4_calls self);
      info_printed := info_printed self |}).

(** [source._source.put(data)] *)
Definition put (source : DataLoaderSource) (data : DataFrame) (self : t) : t :=
  {| _data_loader_sources := _data_loader_sources self;
     _app_config := _app_config self;
     _data_loader_tasks := _data_loader_tasks self;
     logged := logged self;
     sinks := <[source := default [] (sinks self !! source) ++ [data]]> (sinks self);
     uuid4_calls := uuid4_calls self;
     info_printed := info_printed self |}.

(** [data.info(memory_usage=True)] *)
Definition info (data : DataFrame) (self : t) : t :=
  {| _data_loader_sources := _data_loader_sources self;
     _app_config := _app_config self;
     _data_loader_tasks := _data_loader_tasks self;
     logged := logged self;
     sinks := sinks self;
     uuid4_calls := uuid4_calls self;
     info_printed := info_printed self ++ [length data] |}.

Definition register_data_loader_sources
    (data_loader_sources : list DataLoaderSource) (self : t) : t :=
  foldl
    (fun self source =>
       if decide (source ∈ _data_loader_sources self) then
         log WARNING
             "Detected duplicate data loader sources. Configuration: %s"
             (ArgConfig (config source)) self
       else add_source source self)
    self data_loader_sources.

(** [asyncio.create_task(asyncio.to_thread(self.__read_and_put_data,
    source), name=name)]: the task is scheduled, its body has not run. *)
Definition create_task (source : DataLoaderSource) (name : string) : Task.t :=
  {| Task.get_name := name;
     Task.source := source;
     Task.state := Task.Pending |}.

(** The values of [n] successive calls of [str(uuid.uuid4())] after [c]
    earlier calls. *)
Definition drawn_names (c n : nat) : list string := uuid4 <$> seq c n.

(** The body of the loop of [load]. *)
Definition load_one (acc : gset string * t) (source : DataLoaderSource)
  : gset string * t :=
  let '(task_ids, self) := acc in
  let self :=
    log INFO
        "Beginning data load for source with the following configuration: %s"
        (ArgConfig (config source)) self in
  let '(name, self) := next_uuid self in
  let task := create_task source name in
  let self := set_tasks (_data_loader_tasks self ++ [task]) self in
  (task_ids ∪ {[Task.get_name task]}, self).

Definition load (self : t) : gset string * t :=
  let total_sources := size (_data_loader_sources self) in
  let self :=
    log INFO "Starting the loading process for %d data source(s)."
        (ArgInt total_sources) self in
  foldl load_one (∅, self) (elements (_data_loader_sources self)).

(** Small state operations used by the methods below. *)
Definition lift {A} (r : Result A) : Eff t A := fun self => (self, r).

Definition modify (f : t -> t) : Eff t unit := fun self => (f self, Ok tt).

Definition get_task_status_by_name (task_id : string)
  : Eff t (option string) :=
  fun self =>
    match
      List.find (fun task => bool_decide (Task.get_name task = task_id))
                (_data_loader_tasks self)
    with
    | None => ret None self
    | Some task =>
        (if negb (Task.done task) then ret (Some "Task is still running")
         else if Task.cancelled task then ret (Some "Task was cancelled")
         else
           let! exc := lift (Task.exception task) in
           match exc with
           | Some _ =>
               let! exc := lift (Task.exception task) in
               let! _ :=
                 match exc with
                 | Some exc =>
                     modify (log ERROR "traceback.format_exception"
                                 (ArgException exc))
                 | None => ret tt
                 end in
               let! exc := lift (Task.exception task) in
               ret (Some ("Task failed with exception: "
                          +:+ match exc with
                              | Some exc => exc_str exc
                              | None => "None"
                              end
                          +:+ ". For traceback, check the logs."))
           | None => ret (Some "Task completed successfully")
           end) self
    end.

(** The six members of [DataFormat] are dispatched to their pandas
    reader; the wildcard case of the source, which raises [ValueError],
    is reached by no member of the enumeration. *)
Definition __read_data
    (path : string) (data_format : DataFormat)
    (pandas_read_kwargs : option (gmap string string))
  : Result PandasObject :=
  let kwargs := default ∅ pandas_read_kwargs in
  match data_format with
  | CSV => read_csv path kwargs
  | FWF => read_fwf path kwargs
  | XML => read_xml path kwargs
  | JSON => read_json path kwargs
  | PARQUET => read_parquet path kwargs
  | ORC => read_orc path kwargs
  end.

Definition put_logged (what : string) (source : DataLoaderSource)
    (data : DataFrame) : Eff t unit :=
  let! _ := if debug_enabled then modify (info data) else ret tt in
  let! _ := modify (log DEBUG what (ArgInt (length data))) in
  modify (put source data).

Definition __read_and_put_data (source : DataLoaderSource) : Eff t unit :=
  let! data :=
    lift (__read_data (path (config source)) (format (config source))
                      (pandas_read_kwargs (config source))) in
  let! _ :=
    match data with
    | IsDataFrame data =>
        put_logged
          "Data frame of size: %s has been loaded into memory. Beginning persistence process."
          source data
    | IsReader chunks failure =>
        let! _ :=
          for_each
            (put_logged
               "Chunk of size: %s has been loaded into memory. Beginning persistence process."
               source)
            chunks in
        match failure with
        | Some exc => raise exc
        | None => ret tt
        end
    | IsOther type_repr =>
        raise (TypeError
                 ("The returned object from the Pandas read method was not of the expected type. Actual type: "
                  +:+ type_repr))
    end in
  modify (log INFO
              "Finished the data load for source with the following configuration: %s"
              (ArgConfig (config source))).

(** *** The event loop

    The loop runs the body of a pending task and keeps its outcome on the
    task: the exception the body raised, or its completion.  A pending
    task may also be cancelled from outside.  The body of one task is
    run in one step. *)
Definition outcome_state (outcome : Result unit) : Task.State :=
  match outcome with
  | Ok _ => Task.Finished
  | Raise exc => Task.Failed exc
  end.

Definition run_task (i : nat) (self : t) : t :=
  match _data_loader_tasks self !! i with
  | Some task =>
      match Task.state task with
      | Task.Pending =>
          let '(self', outcome) :=
            __read_and_put_data (Task.source task) self in
          set_tasks
            (<[i := Task.with_state (outcome_state outcome) task]>
               (_data_loader_tasks self'))
            self'
      | _ => self
      end
  | None => self
  end.

Definition cancel_task (i : nat) (self : t) : t :=
  match _data_loader_tasks self !! i with
  | Some task =>
      match Task.state task with
      | Task.Pending =>
          set_tasks
            (<[i := Task.with_state Task.Cancelled task]>
               (_data_loader_tasks self))
            self
      | _ => self
      end
  | None => self
  end.

Inductive loop_step : t -> t -> Prop :=
| step_run (i : nat) (self : t) : loop_step self (run_task i self)
| step_cancel (i : nat) (self : t) : loop_step self (cancel_task i self).

(** What the body of the task of a source returns or raises, read off what
    the pandas reader hands back for the configuration of the source. *)
Definition task_outcome (source : DataLoaderSource) : Result unit :=
  match
    __read_data (path (config source)) (format (config source))
                (pandas_read_kwargs (config source))
  with
  | Ok (IsDataFrame _) => Ok tt
  | Ok (IsReader _ None) => Ok tt
  | Ok (IsReader _ (Some exc)) => Raise exc
  | Ok (IsOther type_repr) =>
      Raise (TypeError
               ("The returned object from the Pandas read method was not of the expected type. Actual type: "
                +:+ type_repr))
  | Raise exc => Raise exc
  end.

(** *** The status query, as the spec words it

    [getStatus(taskId) -> {unknown | running | cancelled | failed(detail)
    | succeeded}]. *)
Inductive Status : Type :=
| Unknown
| Running
| WasCancelled
| FailedWith (detail : string)
| Succeeded.

(** The value [get_task_status_by_name] returns for each status. *)
Definition render (st : Status) : option string :=
  match st with
  | Unknown => None
  | Running => Some "Task is still running"
  | WasCancelled => Some "Task was cancelled"
  | FailedWith detail =>
      Some ("Task failed with exception: " +:+ detail
            +:+ ". For traceback, check the logs.")
  | Succeeded => Some "Task completed successfully"
  end.

(** The status of the task an identifier names, read off the task. *)
Definition getStatus (self : t) (task_id : string) : Status :=
  match
    List.find (fun task => bool_decide (Task.get_name task = task_id))
              (_data_loader_tasks self)
  with
  | None => Unknown
  | Some task =>
      match Task.state task with
      | Task.Pending => Running
      | Task.Cancelled => WasCancelled
      | Task.Failed exc => FailedWith (exc_str exc)
      | Task.Finished => Succeeded
      end
  end.
End Loader.
End DataLoader.

(** Short names for the two node classes. *)
Module Online := OnlineCategoricalSimilarityNode.
Module Static := CategoricalSimilarityNode.

(** The result every schema gets on a default-vector pass. *)
Definition default_result `{FW : Framework} (self : Online.t)
  : EvaluationResult Vector :=
  new_EvaluationResult {| value := Static.default_vector (Online.node self) |}.

(** ** The per-record entrypoint, as the spec describes it

    Modelled from the spec: [evaluate_next_single] belongs to [OnlineNode],
    whose code is not among the sources.  The spec has a child pull one
    record's value from a node with it, the node being evaluated once per
    (node, schema) pair instead of once per batch: [evaluate_self] on the one
    record, whose one result is returned. *)
Definition evaluate_next_single
    `{FW : Framework} `{INH : !Online.Inherited}
    (self : Online.t) (parsed_schema : ParsedSchema)
    (context : ExecutionContext) : M (EvaluationResult Vector) :=
  let! results := Online.evaluate_self self [parsed_schema] context in
  match results with
  | result :: _ => ret result
  | [] => raise (OtherError "IndexError" "list index out of range")
  end.


(** ** The declared length, as the spec requires it

    Modelled from the spec: the classes of the static node and of its
    embedding are not among the sources.  The spec has every Vector produced
    by a Node be of the Node's declared length; for what the static node
    supplies, the configured default vector has dimensionality [Node.length]
    and the embedding produces vectors of that length. *)
Definition respects_declared_length `{FW : Framework} (node : Static.t)
  : Prop :=
  length (Static.default_vector node) = Static.length node
  /\ forall label context,
       length (Static.embed (Static.embedding node) label context)
       = Static.length node.

(** ** Purity of a parent, as the spec requires it

    Modelled from the spec: the code of the parents is not among the sources.
    The spec has evaluation be a pure computation with no hidden mutable
    state beyond reads of the storage manager, which the engine never writes:
    a parent leaves the storage as it found it, and what it returns depends
    on the storage only. *)
Definition pure_parent `{FW : Framework} (parent : OnlineNode.t) : Prop :=
  forall schema context w,
    storage (OnlineNode.evaluate_next_single parent schema context w).1
    = storage w
    /\ forall w', storage w' = storage w ->
         (OnlineNode.evaluate_next_single parent schema context w').2
         = (OnlineNode.evaluate_next_single parent schema context w).2.

(** ** A small instance, used to run the definitions *)
Module Demo.

(** Contexts are told apart by whether they ask for a default-vector pass;
    schemas and storage keys are strings. *)
Definition framework : Framework :=
  {| float := Z;
     ExecutionContext := bool;
     ParsedSchema := string;
     StorageKey := string |}.
#[local] Existing Instance framework.

Definition inherited : OnlineCategoricalSimilarityNode.Inherited :=
  {| OnlineCategoricalSimilarityNode.storage_key :=
       fun node schema =>
         CategoricalSimilarityNode.node_id node +:+ "/" +:+ schema;
     OnlineCategoricalSimilarityNode._should_return_default_vector :=
       fun _ _ context => context |}.
#[local] Existing Instance inherited.

Definition colour_embedding
  : CategoricalSimilarityNode.CategoricalSimilarityEmbedding :=
  {| CategoricalSimilarityNode.embed :=
       fun label _ =>
         if decide (label = "blue") then [1; 0]%Z else [0; 1]%Z |}.

Definition colour_node : CategoricalSimilarityNode.t :=
  {| CategoricalSimilarityNode.node_id := "colour";
     CategoricalSimilarityNode.length := 2;
     CategoricalSimilarityNode.default_vector := [0; 0]%Z;
     CategoricalSimilarityNode.embedding := colour_embedding |}.

(** A parent that yields the label ["blue"] for every schema. *)
Definition blue_parent : OnlineNode.t :=
  {| OnlineNode.evaluate_next_single :=
       fun _ _ => ret (new_EvaluationResult {| value := "blue" |}) |}.

Definition source_node : OnlineCategoricalSimilarityNode.t :=
  {| OnlineCategoricalSimilarityNode.node := colour_node;
     OnlineCategoricalSimilarityNode.parents := [] |}.

Definition embedding_node : OnlineCategoricalSimilarityNode.t :=
  {| OnlineCategoricalSimilarityNode.node := colour_node;
     OnlineCategoricalSimilarityNode.parents := [blue_parent] |}.

Definition empty_world : World := {| storage := ∅; events := [] |}.

(** A store holding the vector of schema ["a"] for the colour node. *)
Definition stocked_world : World :=
  {| storage := {[ "colour/a" := [1; 0]%Z ]}; events := [] |}.

(** A store holding, for schema ["a"], a vector of three entries, one more
    than the declared length of the colour node. *)
Definition overlong_world : World :=
  {| storage := {[ "colour/a" := [1; 0; 0]%Z ]}; events := [] |}.

(** A parent that yields the label ["blue"] for schema ["a"] and raises for
    every other schema. *)
Definition picky_parent : OnlineNode.t :=
  {| OnlineNode.evaluate_next_single :=
       fun schema _ =>
         if decide (schema = "a")
         then ret (new_EvaluationResult {| value := "blue" |})
         else raise (TypeError "unexpected value") |}.

Definition picky_node : OnlineCategoricalSimilarityNode.t :=
  {| OnlineCategoricalSimilarityNode.node := colour_node;
     OnlineCategoricalSimilarityNode.parents := [picky_parent] |}.

End Demo.

(** A loader with two sources: the file of the first holds the rows of
    ["a,b\n1,2\n3,4\n5,6\n"], the path of the second does not exist. *)
Module DemoLoader.

Definition rows : DataLoader.DataFrame := [["1"; "2"]; ["3"; "4"]; ["5"; "6"]].

Definition surroundings : DataLoader.Surroundings :=
  {| DataLoader.AppConfig := unit;
     DataLoader.uuid4 :=
       fun n =>
         match n with
         | 0 => "uuid-0" | 1 => "uuid-1" | 2 => "uuid-2" | _ => "uuid-n"
         end;
     DataLoader.debug_enabled := false;
     DataLoader.read_csv :=
       fun path _ =>
         if decide (path = "rows.csv") then Ok (DataLoader.IsDataFrame rows)
         else Raise (OtherError "FileNotFoundError"
                                "[Errno 2] No such file or directory");
     DataLoader.read_fwf := fun _ _ => Ok (DataLoader.IsDataFrame []);
     DataLoader.read_xml := fun _ _ => Ok (DataLoader.IsDataFrame []);
     DataLoader.read_json := fun _ _ => Ok (DataLoader.IsReader [rows] None);
     DataLoader.read_parquet := fun _ _ => Ok (DataLoader.IsDataFrame []);
     DataLoader.read_orc := fun _ _ => Ok (DataLoader.IsOther "<class 'int'>") |}.
#[local] Existing Instance surroundings.

Definition rows_source : DataLoader.DataLoaderSource :=
  {| DataLoader.config :=
       {| DataLoader.path := "rows.csv";
          DataLoader.format := DataLoader.CSV;
          DataLoader.pandas_read_kwargs := None |} |}.

Definition missing_source : DataLoader.DataLoaderSource :=
  {| DataLoader.config :=
       {| DataLoader.path := "missing.csv";
          DataLoader.format := DataLoader.CSV;
          DataLoader.pandas_read_kwargs := None |} |}.

Definition fresh : DataLoader.t := DataLoader.__init__ tt ∅.

(** Both sources registered, the first of them twice. *)
Definition registered : DataLoader.t :=
  DataLoader.register_data_loader_sources
    [rows_source; missing_source; rows_source] fresh.

(** After [load], with the loop having run both tasks. *)
Definition loaded : DataLoader.t := (DataLoader.load registered).2.

Definition finished : DataLoader.t :=
  DataLoader.run_task 1 (DataLoader.run_task 0 loaded).

End DemoLoader.

(** ** Summaries used to state what a batch and a task body do *)

(** The values of a list of outcomes, or the first exception among them. *)
Fixpoint collect {A} (outcomes : list (Result A)) : Result (list A) :=
  match outcomes with
  | [] => Ok []
  | Raise e :: _ => Raise e
  | Ok a :: outcomes' =>
      match collect outcomes' with
      | Ok values => Ok (a :: values)
      | Raise e => Raise e
      end
  end.

(** The keys of a batch up to and including the first key under which the
    store holds nothing. *)
Fixpoint attempted_keys `{FW : Framework}
    (store : gmap StorageKey Vector) (keys : list StorageKey)
  : list StorageKey :=
  match keys with
  | [] => []
  | key :: keys' =>
      key :: match store !! key with
             | Some _ => attempted_keys store keys'
             | None => []
             end
  end.

(** The world after further events were logged. *)
Definition record_events `{FW : Framework} (evs : list Event) (w : World)
  : World :=
  {| storage := storage w; events := events w ++ evs |}.

(** The data frames the pandas reader yields for the configuration of a
    source: the frame itself, or the chunks of a chunked reader, whether or
    not the reader fails after them. *)
Definition delivered `{SUR : DataLoader.Surroundings}
    (source : DataLoader.DataLoaderSource) : list DataLoader.DataFrame :=
  match
    DataLoader.__read_data
      (DataLoader.path (DataLoader.config source))
      (DataLoader.format (DataLoader.config source))
      (DataLoader.pandas_read_kwargs (DataLoader.config source))
  with
  | Ok (DataLoader.IsDataFrame data) => [data]
  | Ok (DataLoader.IsReader chunks _) => chunks
  | _ => []
  end.

(** * Properties *)

(** ** Comprehensions *)
Section ForEach.
Context {S A B : Type} (f : A -> Eff S B).

Lemma for_each_cons x xs s :
  for_each f (x :: xs) s =
  match f x s with
  | (s1, Ok y) =>
      match for_each f xs s1 with
      | (s2, Ok ys) => (s2, Ok (y :: ys))
      | (s2, Raise e) => (s2, Raise e)
      end
  | (s1, Raise e) => (s1, Raise e)
  end.
Proof.
  simpl. unfold bind at 1. destruct (f x s) as [s1 [y|e]]; [|reflexivity].
  unfold bind, ret. destruct (for_each f xs s1) as [s2 [ys|e]]; reflexivity.
Qed.

(** A comprehension that returns has visited every element in order: the
    result for position [i] was computed in the state left by the first [i]
    elements. *)
Lemma for_each_ok xs : forall s s' ys,
  for_each f xs s = (s', Ok ys) ->
  length ys = length xs /\
  forall i x, xs !! i = Some x ->
    exists y si si',
      ys !! i = Some y /\
      for_each f (take i xs) s = (si, Ok (take i ys)) /\
      f x si = (si', Ok y).
Proof.
  induction xs as [|x0 xs IH]; intros s s' ys Hrun.
  - inversion Hrun; subst. split; [reflexivity|]. intros i x Hi.
    rewrite lookup_nil in Hi. discriminate.
  - rewrite for_each_cons in Hrun.
    destruct (f x0 s) as [s1 [y0|e]] eqn:Hhead; [|discriminate].
    destruct (for_each f xs s1) as [s2 [ys0|e]] eqn:Htail; [|discriminate].
    inversion Hrun; subst s2 ys; clear Hrun.
    destruct (IH _ _ _ Htail) as [Hlen Hnth].
    split; [simpl; congruence|].
    intros [|i] x Hi; simpl in Hi.
    + inversion Hi; subst x. exists y0, s, s1. auto.
    + destruct (Hnth i x Hi) as (y & si & si' & Hy & Hpre & Hfx).
      exists y, si, si'. split; [exact Hy|]. split; [|exact Hfx].
      simpl take. rewrite for_each_cons, Hhead, Hpre. reflexivity.
Qed.

(** A comprehension that raises has met a first element whose body raised,
    after the elements before it returned. *)
Lemma for_each_raise xs : forall s s' e,
  for_each f xs s = (s', Raise e) ->
  exists i x si ys,
    xs !! i = Some x /\
    for_each f (take i xs) s = (si, Ok ys) /\
    f x si = (s', Raise e).
Proof.
  induction xs as [|x0 xs IH]; intros s s' e Hrun.
  - discriminate.
  - rewrite for_each_cons in Hrun.
    destruct (f x0 s) as [s1 [y0|e0]] eqn:Hhead.
    + destruct (for_each f xs s1) as [s2 [ys0|e1]] eqn:Htail; [discriminate|].
      inversion Hrun; subst s2 e1; clear Hrun.
      destruct (IH _ _ _ Htail) as (i & x & si & ys & Hi & Hpre & Hfx).
      exists (Datatypes.S i), x, si, (y0 :: ys). split; [exact Hi|].
      split; [|exact Hfx].
      simpl take. rewrite for_each_cons, Hhead, Hpre. reflexivity.
    + inversion Hrun; subst s1 e0; clear Hrun.
      exists 0, x0, s, []. auto.
Qed.
(** What every body call establishes holds of every result of a
    comprehension that returns, along an invariant of the state. *)
Lemma for_each_Forall (P : S -> Prop) (Q : B -> Prop) :
  (forall x s s' y, P s -> f x s = (s', Ok y) -> Q y /\ P s') ->
  forall xs s s' ys,
    P s -> for_each f xs s = (s', Ok ys) -> Forall Q ys /\ P s'.
Proof.
  intros Hbody. induction xs as [|x0 xs IH]; intros s s' ys HP Hrun.
  - inversion Hrun; subst. split; [constructor|exact HP].
  - rewrite for_each_cons in Hrun.
    destruct (f x0 s) as [s1 [y0|e]] eqn:Hhead; [|discriminate].
    destruct (for_each f xs s1) as [s2 [ys0|e]] eqn:Htail; [|discriminate].
    inversion Hrun; subst s2 ys; clear Hrun.
    destruct (Hbody _ _ _ _ HP Hhead) as [HQ HP1].
    destruct (IH _ _ _ HP1 Htail) as [HQs HP2].
    split; [constructor; assumption|exact HP2].
Qed.

(** What every body call establishes between an element and its result
    holds position by position of a comprehension that returns, along an
    invariant of the state. *)
Lemma for_each_Forall2 (P : S -> Prop) (Q : A -> B -> Prop) :
  (forall x s s' y, P s -> f x s = (s', Ok y) -> Q x y /\ P s') ->
  forall xs s s' ys,
    P s -> for_each f xs s = (s', Ok ys) -> Forall2 Q xs ys.
Proof.
  intros Hbody. induction xs as [|x0 xs IH]; intros s s' ys HP Hrun.
  - inversion Hrun; subst. constructor.
  - rewrite for_each_cons in Hrun.
    destruct (f x0 s) as [s1 [y0|e]] eqn:Hhead; [|discriminate].
    destruct (for_each f xs s1) as [s2 [ys0|e]] eqn:Htail; [|discriminate].
    inversion Hrun; subst s2 ys; clear Hrun.
    destruct (Hbody _ _ _ _ HP Hhead) as [HQ HP1].
    constructor; [exact HQ|exact (IH _ _ _ HP1 Htail)].
Qed.

(** An invariant of the body is an invariant of the comprehension, whether
    it returns or raises. *)
Lemma for_each_invariant (P : S -> Prop) :
  (forall x s, P s -> P (f x s).1) ->
  forall xs s, P s -> P (for_each f xs s).1.
Proof.
  intros Hbody. induction xs as [|x0 xs IH]; intros s HP; [exact HP|].
  rewrite for_each_cons. specialize (Hbody x0 s HP).
  destruct (f x0 s) as [s1 [y0|e]]; [|exact Hbody].
  specialize (IH s1 Hbody).
  destruct (for_each f xs s1) as [s2 [ys0|e]]; exact IH.
Qed.
(** A comprehension over a concatenation runs the first list, then the
    second in the state the first left, and stops at the first exception. *)
Lemma for_each_app xs ys s :
  for_each f (xs ++ ys) s =
  match for_each f xs s with
  | (s1, Ok xs') =>
      match for_each f ys s1 with
      | (s2, Ok ys') => (s2, Ok (xs' ++ ys'))
      | (s2, Raise e) => (s2, Raise e)
      end
  | (s1, Raise e) => (s1, Raise e)
  end.
Proof.
  revert s. induction xs as [|x xs IH]; intros s.
  - simpl. unfold ret. destruct (for_each f ys s) as [s2 [ys'|e]]; reflexivity.
  - simpl app. rewrite !for_each_cons.
    destruct (f x s) as [s0 [y|e]]; [|reflexivity].
    rewrite IH. destruct (for_each f xs s0) as [s1 [xs'|e]]; [|reflexivity].
    destruct (for_each f ys s1) as [s2 [ys'|e]]; reflexivity.
Qed.
End ForEach.

(** ** The online categorical-similarity node *)
Section Evaluation.
Context `{FW : Framework} `{INH : !Online.Inherited}.

Lemma evaluate_self_default self schemas context w :
  Online._should_return_default_vector self schemas context = true ->
  Online.evaluate_self self schemas context w
  = (w, Ok (map (fun _ => default_result self) schemas)).
Proof. intros Hd. unfold Online.evaluate_self. rewrite Hd. reflexivity. Qed.

Lemma evaluate_self_per_schema self schemas context :
  Online._should_return_default_vector self schemas context = false ->
  Online.evaluate_self self schemas context
  = for_each (fun schema => Online.evaluate_self_single self schema context)
             schemas.
Proof. intros Hd. unfold Online.evaluate_self. rewrite Hd. reflexivity. Qed.

(** C1. Whatever the node, the batch, the context and the world,
    [evaluate_self] either returns a list of results that is as long as the
    batch and whose [i]-th entry is the result computed for the [i]-th
    schema (the default result on a default pass, and otherwise what
    [evaluate_self_single] returned for that schema, in the world left by
    the schemas before it), or, outside a default pass, raises the exception
    of the first schema whose evaluation raised. *)
Theorem evaluate_self_same_length_and_order
    (self : Online.t) (schemas : list ParsedSchema)
    (context : ExecutionContext) (w : World) :
  match Online.evaluate_self self schemas context w with
  | (w', Ok results) =>
      length results = length schemas /\
      forall i schema, schemas !! i = Some schema ->
        exists result,
          results !! i = Some result /\
          if Online._should_return_default_vector self schemas context
          then result = default_result self
          else exists wi wi',
              for_each
                (fun schema => Online.evaluate_self_single self schema context)
                (take i schemas) w = (wi, Ok (take i results)) /\
              Online.evaluate_self_single self schema context wi
              = (wi', Ok result)
  | (w', Raise e) =>
      Online._should_return_default_vector self schemas context = false /\
      exists i schema wi results,
        schemas !! i = Some schema /\
        for_each
          (fun schema => Online.evaluate_self_single self schema context)
          (take i schemas) w = (wi, Ok results) /\
        Online.evaluate_self_single self schema context wi = (w', Raise e)
  end.
Proof.
  destruct (Online._should_return_default_vector self schemas context) eqn:Hd.
  - rewrite (evaluate_self_default _ _ _ _ Hd).
    split; [apply length_map|].
    intros i schema Hi. exists (default_result self). split; [|reflexivity].
    rewrite list_lookup_fmap, Hi. reflexivity.
  - rewrite (evaluate_self_per_schema _ _ _ Hd).
    destruct (for_each _ schemas w) as [w' [results|e]] eqn:Hrun.
    + destruct (for_each_ok _ _ _ _ _ Hrun) as [Hlen Hnth].
      split; [exact Hlen|].
      intros i schema Hi.
      destruct (Hnth i schema Hi) as (result & wi & wi' & Hr & Hpre & Hone).
      exists result. split; [exact Hr|]. exists wi, wi'. auto.
    + split; [reflexivity|]. exact (for_each_raise _ _ _ _ _ Hrun).
Qed.

(** C2. On a default-vector pass [evaluate_self] returns, for every schema
    of the batch, the default vector configured on the node, whose
    dimensionality is the declared length of the node as soon as the node
    is configured so; the world it returns is the world it was given, so
    nothing was read from the storage manager and no parent was
    evaluated. *)
Theorem default_pass_returns_default_vectors
    (self : Online.t) (schemas : list ParsedSchema)
    (context : ExecutionContext) (w : World) :
  Online._should_return_default_vector self schemas context = true ->
  length (Static.default_vector (Online.node self)) = Online.length self ->
  exists results,
    Online.evaluate_self self schemas context w = (w, Ok results) /\
    length results = length schemas /\
    Forall
      (fun result =>
         value (main result) = Static.default_vector (Online.node self) /\
         length (value (main result)) = Online.length self)
      results.
Proof.
  intros Hd Hlen. exists (map (fun _ => default_result self) schemas).
  split; [exact (evaluate_self_default _ _ _ _ Hd)|].
  split; [apply length_map|].
  apply Forall_fmap, Forall_true. intros schema. split; [reflexivity|exact Hlen].
Qed.

(** C10. On the empty batch [evaluate_self] returns the empty list and the
    world it was given, whichever branch the default-pass test selects: no
    storage read and no parent evaluation takes place. *)
Theorem evaluate_self_empty_batch
    (self : Online.t) (context : ExecutionContext) (w : World) :
  Online.evaluate_self self [] context w = (w, Ok []).
Proof.
  unfold Online.evaluate_self.
  destruct (Online._should_return_default_vector self [] context);
    reflexivity.
Qed.

(** *** Source nodes *)

Lemma evaluate_self_single_source self schema context w :
  Online.parents self = [] ->
  Online.evaluate_self_single self schema context w
  = (record_event
       (StorageLoad (Online.storage_key (Online.node self) schema)) w,
     match storage w !! Online.storage_key (Online.node self) schema with
     | Some stored_result =>
         Ok (new_EvaluationResult {| value := stored_result |})
     | None => Raise MissingStoredResultError
     end).
Proof.
  intros Hp. unfold Online.evaluate_self_single. rewrite Hp.
  unfold Online.load_stored_result_or_raise_exception, bind, emit, get_storage.
  simpl.
  destruct (storage w !! Online.storage_key (Online.node self) schema);
    reflexivity.
Qed.

(** C3. A node without parents, outside a default pass, loads the key built
    from the node and the schema (the load is the one event logged): when a
    vector is stored under the key the result wraps it, when none is stored
    the evaluation raises [MissingStoredResultError]; and however many times
    the evaluation is repeated, its outcome is the same. *)
Theorem source_node_loads_or_fails
    (self : Online.t) (schema : ParsedSchema)
    (context : ExecutionContext) (w : World) :
  Online.parents self = [] ->
  Online._should_return_default_vector self [schema] context = false ->
  let key := Online.storage_key (Online.node self) schema in
  let outcome :=
    match storage w !! key with
    | Some stored_result =>
        Ok (new_EvaluationResult {| value := stored_result |})
    | None => Raise MissingStoredResultError
    end in
  Online.evaluate_self_single self schema context w
  = (record_event (StorageLoad key) w, outcome)
  /\ Online.evaluate_self self [schema] context w
     = (record_event (StorageLoad key) w,
        match outcome with
        | Ok result => Ok [result]
        | Raise e => Raise e
        end)
  /\ forall n,
       (Online.evaluate_self_single self schema context
          (Nat.iter n
             (fun w => (Online.evaluate_self_single self schema context w).1)
             w)).2
       = outcome.
Proof.
  intros Hp Hd key outcome.
  pose proof (evaluate_self_single_source self schema context) as Hone.
  split; [exact (Hone w Hp)|]. split.
  - rewrite (evaluate_self_per_schema _ _ _ Hd), for_each_cons, (Hone w Hp).
    fold key. fold outcome. destruct outcome; reflexivity.
  - intros n.
    assert (Hst : storage
                    (Nat.iter n
                       (fun w =>
                          (Online.evaluate_self_single self schema context w).1)
                       w)
                  = storage w).
    { induction n as [|n IH]; [reflexivity|].
      simpl. rewrite (Hone _ Hp). simpl. exact IH. }
    rewrite (Hone _ Hp). simpl. rewrite Hst. reflexivity.
Qed.

(** *** Nodes with a parent *)

Lemma evaluate_self_single_parent self parent rest schema context w :
  Online.parents self = parent :: rest ->
  Online.evaluate_self_single self schema context w
  = match
      OnlineNode.evaluate_next_single parent schema context
        (record_event (ParentEvaluation 0 schema) w)
    with
    | (w', Ok input_) =>
        (w',
         Ok (new_EvaluationResult
               {| value :=
                    Static.embed (Static.embedding (Online.node self))
                                 (value (main input_)) context |}))
    | (w', Raise e) => (w', Raise e)
    end.
Proof.
  intros Hp. unfold Online.evaluate_self_single. rewrite Hp.
  unfold Online.call_evaluate_next_single, bind, emit. simpl.
  destruct (OnlineNode.evaluate_next_single parent schema context _)
    as [w' [input_|e]]; reflexivity.
Qed.

(** C4. A node with exactly one parent evaluates a schema by calling the
    parent's [evaluate_next_single] on the schema and the context (the call
    is logged, and an exception of the parent is passed on), taking the main
    value of what the parent returns and wrapping the embedding of that
    value under the context; outside a default pass this is what
    [evaluate_self] does for each schema of the batch.  Two evaluations
    under one context whose parent yields the same main value have the same
    outcome, whatever the schemas and the worlds. *)
Theorem one_parent_node_embeds_parent_value
    (self : Online.t) (parent : OnlineNode.t) (schema : ParsedSchema)
    (context : ExecutionContext) (w : World) :
  Online.parents self = [parent] ->
  Online.evaluate_self_single self schema context w
  = match
      OnlineNode.evaluate_next_single parent schema context
        (record_event (ParentEvaluation 0 schema) w)
    with
    | (w', Ok input_) =>
        (w',
         Ok (new_EvaluationResult
               {| value :=
                    Static.embed (Static.embedding (Online.node self))
                                 (value (main input_)) context |}))
    | (w', Raise e) => (w', Raise e)
    end
  /\ (forall schemas,
        Online._should_return_default_vector self schemas context = false ->
        Online.evaluate_self self schemas context
        = for_each
            (fun schema => Online.evaluate_self_single self schema context)
            schemas)
  /\ (forall schema1 schema2 w1 w2 w1' w2' input1 input2,
        OnlineNode.evaluate_next_single parent schema1 context
          (record_event (ParentEvaluation 0 schema1) w1) = (w1', Ok input1) ->
        OnlineNode.evaluate_next_single parent schema2 context
          (record_event (ParentEvaluation 0 schema2) w2) = (w2', Ok input2) ->
        value (main input1) = value (main input2) ->
        (Online.evaluate_self_single self schema1 context w1).2
        = (Online.evaluate_self_single self schema2 context w2).2).
Proof.
  intros Hp. split; [exact (evaluate_self_single_parent _ _ _ _ _ _ Hp)|].
  split; [intros schemas Hd; exact (evaluate_self_per_schema _ _ _ Hd)|].
  intros schema1 schema2 w1 w2 w1' w2' input1 input2 H1 H2 Heq.
  rewrite !(evaluate_self_single_parent _ _ _ _ _ _ Hp), H1, H2. simpl.
  rewrite Heq. reflexivity.
Qed.

(** *** Construction *)

(** C6. Constructing the node checks the number of parents against the
    policy of the node kind, fewer than two parents, once: the check is the
    one event the construction logs, and the storage is left alone.  With
    fewer than two parents the construction returns the node holding these
    parents; with two or more it raises [ConfigurationError] and returns no
    node. *)
Theorem construction_enforces_arity
    (node : Static.t) (parents : list OnlineNode.t) (w : World) :
  Online.__init__ node parents w
  = (record_event
       (ParentValidation Online.LESS_THAN_TWO_PARENTS (length parents)) w,
     if decide (length parents < 2)
     then Ok {| Online.node := node; Online.parents := parents |}
     else Raise ConfigurationError)
  /\ storage (Online.__init__ node parents w).1 = storage w
  /\ events (Online.__init__ node parents w).1
     = events w
       ++ [ParentValidation Online.LESS_THAN_TWO_PARENTS (length parents)].
Proof.
  assert (Heq : Online.__init__ node parents w
                = (record_event
                     (ParentValidation Online.LESS_THAN_TWO_PARENTS
                        (length parents)) w,
                   if decide (length parents < 2)
                   then Ok {| Online.node := node; Online.parents := parents |}
                   else Raise ConfigurationError)).
  { unfold Online.__init__, OnlineNode.__init__, OnlineNode.validate_parents,
      bind, emit, Online.LESS_THAN_TWO_PARENTS. simpl.
    destruct (decide (length parents < 2)) as [Hlt|Hge].
    - rewrite bool_decide_eq_true_2 by lia. reflexivity.
    - rewrite bool_decide_eq_false_2 by lia. reflexivity. }
  rewrite Heq. repeat split; reflexivity.
Qed.

(** *** Lengths *)

(** C7, amended. Every vector [evaluate_self] returns is handed on
    unchanged from where it comes: on a default pass it is the default
    vector configured on the node, on a node without parents it is the
    vector stored under the key of the schema, and on a node with a parent
    it is the output of the embedding for the main value the parent
    returned.  No length is checked on the way.  So, the static node
    supplying a default vector and embedding outputs of the declared length,
    every vector of the batch has the declared length as soon as, for a node
    without parents outside a default pass, the vectors stored for the
    schemas of the batch have it. *)
Theorem produced_vectors_are_handed_on_unchanged
    (self : Online.t) (schemas : list ParsedSchema)
    (context : ExecutionContext) (w w' : World)
    (results : list (EvaluationResult Vector)) :
  Online.evaluate_self self schemas context w = (w', Ok results) ->
  Forall2
    (fun schema result =>
       if Online._should_return_default_vector self schemas context
       then value (main result) = Static.default_vector (Online.node self)
       else
         match Online.parents self with
         | [] =>
             storage w !! Online.storage_key (Online.node self) schema
             = Some (value (main result))
         | parent :: _ =>
             exists w0 w1 input_,
               OnlineNode.evaluate_next_single parent schema context w0
               = (w1, Ok input_)
               /\ value (main result)
                  = Static.embed (Static.embedding (Online.node self))
                                 (value (main input_)) context
         end)
    schemas results
  /\ (respects_declared_length (Online.node self) ->
      (Online._should_return_default_vector self schemas context = false ->
       Online.parents self = [] ->
       forall schema stored_result,
         schema ∈ schemas ->
         storage w !! Online.storage_key (Online.node self) schema
         = Some stored_result ->
         length stored_result = Online.length self) ->
      Forall (fun result => length (value (main result)) = Online.length self)
             results).
Proof.
  intros Hrun.
  assert (Horigin :
    Forall2
      (fun schema result =>
         if Online._should_return_default_vector self schemas context
         then value (main result) = Static.default_vector (Online.node self)
         else
           match Online.parents self with
           | [] =>
               storage w !! Online.storage_key (Online.node self) schema
               = Some (value (main result))
           | parent :: _ =>
               exists w0 w1 input_,
                 OnlineNode.evaluate_next_single parent schema context w0
                 = (w1, Ok input_)
                 /\ value (main result)
                    = Static.embed (Static.embedding (Online.node self))
                                   (value (main input_)) context
           end)
      schemas results).
  { destruct (Online._should_return_default_vector self schemas context)
      eqn:Hd.
    - rewrite (evaluate_self_default _ _ _ _ Hd) in Hrun.
      inversion Hrun; subst. apply Forall2_fmap_r, Forall_Forall2_diag.
      apply Forall_true. intros schema. reflexivity.
    - rewrite (evaluate_self_per_schema _ _ _ Hd) in Hrun.
      destruct (Online.parents self) as [|parent rest] eqn:Hp.
      + refine (for_each_Forall2 _ (fun w0 => storage w0 = storage w) _ _
                  schemas w w' results eq_refl Hrun).
        intros schema w0 w1 result Hst Hone.
        rewrite (evaluate_self_single_source _ _ _ _ Hp) in Hone.
        inversion Hone as [[Hw Hres]]. split; [|exact Hst].
        rewrite Hst in Hres.
        destruct (storage w !! _) as [stored_result|]; [|discriminate].
        inversion Hres. reflexivity.
      + refine (for_each_Forall2 _ (fun _ => True) _ _
                  schemas w w' results I Hrun).
        intros schema w0 w1 result _ Hone.
        rewrite (evaluate_self_single_parent _ _ _ _ _ _ Hp) in Hone.
        destruct (OnlineNode.evaluate_next_single parent schema context _)
          as [w2 [input_|e]] eqn:Hparent; [|discriminate].
        inversion Hone; subst. split; [|exact I].
        eexists _, _, input_. split; [exact Hparent|reflexivity]. }
  split; [exact Horigin|].
  intros [Hdefault Hembed] Hstored.
  apply Forall_lookup. intros i result Hresult. cbv beta.
  destruct (Forall2_lookup_r _ _ _ _ _ Horigin Hresult)
    as (schema & Hschema & Hfrom).
  destruct (Online._should_return_default_vector self schemas context).
  - exact (eq_trans (f_equal length Hfrom) Hdefault).
  - destruct (Online.parents self) as [|parent rest].
    + apply (Hstored eq_refl eq_refl schema); [|exact Hfrom].
      exact (list_elem_of_lookup_2 _ _ _ Hschema).
    + destruct Hfrom as (w0 & w1 & input_ & _ & Hfrom).
      exact (eq_trans (f_equal length Hfrom) (Hembed _ _)).
Qed.

(** *** Batches and single schemas *)

Lemma evaluate_self_single_storage self schema context w :
  Forall pure_parent (Online.parents self) ->
  storage (Online.evaluate_self_single self schema context w).1 = storage w.
Proof.
  intros Hpure. destruct (Online.parents self) as [|parent rest] eqn:Hp.
  - rewrite (evaluate_self_single_source _ _ _ _ Hp). reflexivity.
  - rewrite (evaluate_self_single_parent _ _ _ _ _ _ Hp).
    apply Forall_cons in Hpure as [Hparent _].
    destruct (Hparent schema context
                (record_event (ParentEvaluation 0 schema) w)) as [Hst _].
    destruct (OnlineNode.evaluate_next_single parent schema context _)
      as [w2 [input_|e]]; exact Hst.
Qed.

Lemma evaluate_self_single_outcome self schema context w1 w2 :
  Forall pure_parent (Online.parents self) ->
  storage w1 = storage w2 ->
  (Online.evaluate_self_single self schema context w1).2
  = (Online.evaluate_self_single self schema context w2).2.
Proof.
  intros Hpure Hst. destruct (Online.parents self) as [|parent rest] eqn:Hp.
  - rewrite !(evaluate_self_single_source _ _ _ _ Hp). simpl.
    rewrite Hst. reflexivity.
  - rewrite !(evaluate_self_single_parent _ _ _ _ _ _ Hp).
    apply Forall_cons in Hpure as [Hparent _].
    destruct (Hparent schema context
                (record_event (ParentEvaluation 0 schema) w2)) as [_ Hdep].
    specialize (Hdep (record_event (ParentEvaluation 0 schema) w1) Hst).
    destruct (OnlineNode.evaluate_next_single parent schema context
                (record_event (ParentEvaluation 0 schema) w1))
      as [w1' [input1|e1]];
      destruct (OnlineNode.evaluate_next_single parent schema context
                  (record_event (ParentEvaluation 0 schema) w2))
      as [w2' [input2|e2]]; simpl in Hdep; inversion Hdep; reflexivity.
Qed.

End Evaluation.

(** *** Further properties of the node *)
Section Batches.
Context {FW : Framework} {INH : @Online.Inherited FW}.

(** X1. When the default-pass test answers for two batches as it answers for
    their concatenation, evaluating the concatenation is evaluating the
    first batch and then, in the world it left, the second: the results are
    appended, and an exception of either part is the exception of the
    whole. *)
Theorem evaluate_self_app
    (self : Online.t) (schemas1 schemas2 : list ParsedSchema)
    (context : ExecutionContext) (w : World) :
  Online._should_return_default_vector self schemas1 context
  = Online._should_return_default_vector self (schemas1 ++ schemas2) context ->
  Online._should_return_default_vector self schemas2 context
  = Online._should_return_default_vector self (schemas1 ++ schemas2) context ->
  Online.evaluate_self self (schemas1 ++ schemas2) context w
  = match Online.evaluate_self self schemas1 context w with
    | (w1, Ok results1) =>
        match Online.evaluate_self self schemas2 context w1 with
        | (w2, Ok results2) => (w2, Ok (results1 ++ results2))
        | (w2, Raise e) => (w2, Raise e)
        end
    | (w1, Raise e) => (w1, Raise e)
    end.
Proof.
  intros H1 H2. unfold Online.evaluate_self. rewrite H1, H2.
  destruct (Online._should_return_default_vector self (schemas1 ++ schemas2)
              context).
  - unfold ret. rewrite map_app. reflexivity.
  - apply for_each_app.
Qed.

Lemma for_each_source self context :
  Online.parents self = [] ->
  forall schemas w,
    for_each (fun schema => Online.evaluate_self_single self schema context)
             schemas w
    = (record_events
         (StorageLoad
            <$> attempted_keys (storage w)
                  (Online.storage_key (Online.node self) <$> schemas))
         w,
       match
         mapM (fun schema =>
                 storage w !! Online.storage_key (Online.node self) schema)
              schemas
       with
       | Some stored_results =>
           Ok ((fun stored_result =>
                  new_EvaluationResult {| value := stored_result |})
                 <$> stored_results)
       | None => Raise MissingStoredResultError
       end).
Proof.
  intros Hp. induction schemas as [|schema schemas IH]; intros w.
  - unfold record_events. simpl. rewrite app_nil_r. destruct w; reflexivity.
  - rewrite for_each_cons, (evaluate_self_single_source _ _ _ _ Hp).
    simpl fmap. simpl attempted_keys. simpl mapM.
    destruct (storage w !! Online.storage_key (Online.node self) schema)
      as [stored_result|] eqn:Hlook; simpl.
    + rewrite IH. simpl storage.
      destruct (mapM _ schemas) as [stored_results|]; simpl;
        unfold record_events, record_event; simpl;
        rewrite <- app_assoc; reflexivity.
    + reflexivity.
Qed.

(** X2. Outside a default pass, a batch on a node without parents loads the
    keys of its schemas in order and stops after the first key under which
    nothing is stored: these loads are all it adds to the log, and the
    storage is as before.  It returns the stored vectors, wrapped and in
    order, when every schema has one, and raises
    [MissingStoredResultError], with no result for any schema, when one has
    none. *)
Theorem source_batch_loads_until_first_missing
    (self : Online.t) (schemas : list ParsedSchema)
    (context : ExecutionContext) (w : World) :
  Online.parents self = [] ->
  Online._should_return_default_vector self schemas context = false ->
  Online.evaluate_self self schemas context w
  = (record_events
       (StorageLoad
          <$> attempted_keys (storage w)
                (Online.storage_key (Online.node self) <$> schemas))
       w,
     match
       mapM (fun schema =>
               storage w !! Online.storage_key (Online.node self) schema)
            schemas
     with
     | Some stored_results =>
         Ok ((fun stored_result =>
                new_EvaluationResult {| value := stored_result |})
               <$> stored_results)
     | None => Raise MissingStoredResultError
     end).
Proof.
  intros Hp Hd. rewrite (evaluate_self_per_schema _ _ _ Hd).
  apply (for_each_source _ _ Hp).
Qed.

(** X3. With pure parents, [evaluate_self] never changes the storage,
    whether it returns or raises and whether or not the pass is a default
    pass. *)
Theorem evaluate_self_keeps_storage
    (self : Online.t) (schemas : list ParsedSchema)
    (context : ExecutionContext) (w : World) :
  Forall pure_parent (Online.parents self) ->
  storage (Online.evaluate_self self schemas context w).1 = storage w.
Proof.
  intros Hpure. unfold Online.evaluate_self.
  destruct (Online._should_return_default_vector self schemas context);
    [reflexivity|].
  apply (for_each_invariant
           (fun schema => Online.evaluate_self_single self schema context)
           (fun w0 => storage w0 = storage w)); [|reflexivity].
  intros schema w0 Hw0.
  rewrite (evaluate_self_single_storage self schema context w0 Hpure).
  exact Hw0.
Qed.

Lemma for_each_collect self context w :
  Forall pure_parent (Online.parents self) ->
  forall schemas w0,
    storage w0 = storage w ->
    (for_each (fun schema => Online.evaluate_self_single self schema context)
              schemas w0).2
    = collect
        ((fun schema =>
            (Online.evaluate_self_single self schema context w).2)
           <$> schemas).
Proof.
  intros Hpure. induction schemas as [|schema schemas IH]; intros w0 Hw0;
    [reflexivity|].
  rewrite for_each_cons, fmap_cons. cbn [collect].
  rewrite <- (evaluate_self_single_outcome self schema context w0 w Hpure Hw0).
  pose proof (evaluate_self_single_storage self schema context w0 Hpure)
    as Hst.
  destruct (Online.evaluate_self_single self schema context w0)
    as [w1 [result|e]]; simpl in Hst; cbn [snd]; [|reflexivity].
  rewrite <- (IH w1 (eq_trans Hst Hw0)).
  destruct (for_each _ schemas w1) as [w2 [results|e]]; reflexivity.
Qed.

(** X4. Outside a default pass and with pure parents, the outcome of a batch
    is the outcome of its schemas evaluated one by one from the same world:
    all their results in order when each of them returns, and otherwise the
    exception of the first schema, in batch order, whose own evaluation
    raises. *)
Theorem batch_outcome_is_collected_single_outcomes
    (self : Online.t) (schemas : list ParsedSchema)
    (context : ExecutionContext) (w : World) :
  Online._should_return_default_vector self schemas context = false ->
  Forall pure_parent (Online.parents self) ->
  (Online.evaluate_self self schemas context w).2
  = collect
      ((fun schema => (Online.evaluate_self_single self schema context w).2)
         <$> schemas).
Proof.
  intros Hd Hpure. rewrite (evaluate_self_per_schema _ _ _ Hd).
  exact (for_each_collect self context w Hpure schemas w eq_refl).
Qed.

Lemma for_each_parent_calls self parent rest context :
  Online.parents self = parent :: rest ->
  (forall schema w,
     events (OnlineNode.evaluate_next_single parent schema context w).1
     = events w) ->
  forall schemas w,
    exists n,
      n <= length schemas
      /\ events
           (for_each
              (fun schema => Online.evaluate_self_single self schema context)
              schemas w).1
         = events w ++ (ParentEvaluation 0 <$> take n schemas)
      /\ (forall results,
            (for_each
               (fun schema => Online.evaluate_self_single self schema context)
               schemas w).2 = Ok results ->
            n = length schemas).
Proof.
  intros Hp Hquiet. induction schemas as [|schema schemas IH]; intros w.
  - exists 0. simpl. rewrite app_nil_r. auto.
  - rewrite for_each_cons, (evaluate_self_single_parent _ _ _ _ _ _ Hp).
    pose proof (Hquiet schema (record_event (ParentEvaluation 0 schema) w))
      as Hev.
    destruct (OnlineNode.evaluate_next_single parent schema context _)
      as [w1 [input_|e]]; simpl in Hev.
    + destruct (IH w1) as (n & Hn & Hevents & Hall).
      exists (S n). split; [simpl; lia|].
      destruct (for_each _ schemas w1) as [w2 [results|e]];
        simpl in Hevents, Hall |- *.
      * split; [rewrite Hevents, Hev, <- app_assoc; reflexivity|].
        intros results' _. f_equal. exact (Hall results eq_refl).
      * split; [rewrite Hevents, Hev, <- app_assoc; reflexivity|].
        intros results' Hok. discriminate.
    + exists 1. split; [simpl; lia|]. simpl.
      split; [rewrite Hev; reflexivity|].
      intros results Hok. discriminate.
Qed.

Lemma for_each_parent_calls_ok self parent rest context :
  Online.parents self = parent :: rest ->
  (forall schema w,
     events (OnlineNode.evaluate_next_single parent schema context w).1
     = events w) ->
  forall schemas w w' results,
    for_each (fun schema => Online.evaluate_self_single self schema context)
             schemas w = (w', Ok results) ->
    events w' = events w ++ (ParentEvaluation 0 <$> schemas).
Proof.
  intros Hp Hquiet schemas w w' results Hrun.
  destruct (for_each_parent_calls self parent rest context Hp Hquiet schemas w)
    as (n & _ & Hevents & Hall).
  rewrite Hrun in Hevents, Hall. simpl in Hevents, Hall.
  rewrite (Hall results eq_refl), firstn_all in Hevents. exact Hevents.
Qed.

(** X5. Outside a default pass, a node with a parent that logs nothing
    itself calls the parent once per schema, in batch order, and loads
    nothing from the storage.  When the batch returns, the calls logged are
    those for all its schemas.  When it raises, the calls for the schemas
    before some position returned, the call for the schema at that position
    raised the exception of the batch, and the calls logged are those up to
    and including that one: no call is made after the first that raises. *)
Theorem parent_called_once_per_schema_in_order
    (self : Online.t) (parent : OnlineNode.t) (rest : list OnlineNode.t)
    (schemas : list ParsedSchema) (context : ExecutionContext) (w : World) :
  Online.parents self = parent :: rest ->
  Online._should_return_default_vector self schemas context = false ->
  (forall schema w0,
     events (OnlineNode.evaluate_next_single parent schema context w0).1
     = events w0) ->
  match Online.evaluate_self self schemas context w with
  | (w', Ok results) =>
      events w' = events w ++ (ParentEvaluation 0 <$> schemas)
  | (w', Raise e) =>
      exists i schema wi results,
        schemas !! i = Some schema
        /\ for_each
             (fun schema => Online.evaluate_self_single self schema context)
             (take i schemas) w = (wi, Ok results)
        /\ OnlineNode.evaluate_next_single parent schema context
             (record_event (ParentEvaluation 0 schema) wi)
           = (w', Raise e)
        /\ events w'
           = events w ++ (ParentEvaluation 0 <$> take (S i) schemas)
  end.
Proof.
  intros Hp Hd Hquiet. rewrite (evaluate_self_per_schema _ _ _ Hd).
  destruct (for_each _ schemas w) as [w' [results|e]] eqn:Hrun.
  - exact (for_each_parent_calls_ok self parent rest context Hp Hquiet
             schemas w w' results Hrun).
  - destruct (for_each_raise _ _ _ _ _ Hrun)
      as (i & schema & wi & results & Hi & Hpre & Hone).
    exists i, schema, wi, results.
    split; [exact Hi|]. split; [exact Hpre|].
    rewrite (evaluate_self_single_parent _ _ _ _ _ _ Hp) in Hone.
    pose proof (Hquiet schema (record_event (ParentEvaluation 0 schema) wi))
      as Hev.
    destruct (OnlineNode.evaluate_next_single parent schema context
                (record_event (ParentEvaluation 0 schema) wi))
      as [w1 [input_|e1]]; [discriminate|].
    inversion Hone; subst w1 e1. split; [reflexivity|].
    simpl in Hev. rewrite Hev.
    rewrite (for_each_parent_calls_ok self parent rest context Hp Hquiet
               (take i schemas) w wi results Hpre).
    rewrite (take_S_r _ _ _ Hi), fmap_app, <- app_assoc. reflexivity.
Qed.
End Batches.

(** *** Batches and the per-record entrypoint *)
Section PerRecord.
Context {FW : Framework} {INH : @Online.Inherited FW}.



End PerRecord.

(** *** The node at work on the small instance *)
#[local] Existing Instance Demo.framework.
#[local] Existing Instance Demo.inherited.

Lemma Demo_respects_declared_length :
  respects_declared_length Demo.colour_node.
Proof.
  split; [reflexivity|]. intros label context. simpl.
  destruct (decide (label = "blue")); reflexivity.
Qed.

Lemma Demo_blue_parent_pure : pure_parent Demo.blue_parent.
Proof. intros schema context w. split; [reflexivity|]. intros w' _. reflexivity. Qed.

Lemma default_pass_returns_default_vectors_witness :
  Online._should_return_default_vector Demo.embedding_node ["a"; "b"] true
  = true
  /\ length (Static.default_vector (Online.node Demo.embedding_node))
     = Online.length Demo.embedding_node
  /\ exists results,
       Online.evaluate_self Demo.embedding_node ["a"; "b"] true
         Demo.empty_world
       = (Demo.empty_world, Ok results)
       /\ length results = length ["a"; "b"]
       /\ Forall
            (fun result =>
               value (main result)
               = Static.default_vector (Online.node Demo.embedding_node)
               /\ length (value (main result))
                  = Online.length Demo.embedding_node)
            results.
Proof.
  split; [reflexivity|]. split; [reflexivity|].
  apply (default_pass_returns_default_vectors
           Demo.embedding_node ["a"; "b"] true Demo.empty_world);
    reflexivity.
Defined.

Lemma source_node_loads_or_fails_witness :
  Online.parents Demo.source_node = []
  /\ Online._should_return_default_vector Demo.source_node ["a"] false = false
  /\ (Online.evaluate_self_single Demo.source_node "a" false
        Demo.stocked_world).2
     = Ok (new_EvaluationResult {| value := [1; 0]%Z |})
  /\ (Online.evaluate_self_single Demo.source_node "a" false
        Demo.empty_world).2
     = Raise MissingStoredResultError.
Proof.
  split; [reflexivity|]. split; [reflexivity|]. split.
  - destruct (source_node_loads_or_fails
                Demo.source_node "a" false Demo.stocked_world)
      as [Hone _]; [reflexivity..|].
    rewrite Hone. reflexivity.
  - destruct (source_node_loads_or_fails
                Demo.source_node "a" false Demo.empty_world)
      as [Hone _]; [reflexivity..|].
    rewrite Hone. reflexivity.
Defined.

Lemma one_parent_node_embeds_parent_value_witness :
  Online.parents Demo.embedding_node = [Demo.blue_parent]
  /\ (Online.evaluate_self_single Demo.embedding_node "a" false
        Demo.empty_world).2
     = Ok (new_EvaluationResult {| value := [1; 0]%Z |}).
Proof.
  split; [reflexivity|].
  destruct (one_parent_node_embeds_parent_value
              Demo.embedding_node Demo.blue_parent "a" false Demo.empty_world)
    as [Hone _]; [reflexivity|].
  rewrite Hone. reflexivity.
Defined.

Lemma produced_vectors_are_handed_on_unchanged_witness :
  Forall2
    (fun schema result =>
       storage Demo.stocked_world
         !! Online.storage_key (Online.node Demo.source_node) schema
       = Some (value (main result)))
    ["a"] [new_EvaluationResult {| value := [1; 0]%Z |}]
  /\ Forall
       (fun result =>
          length (value (main result)) = Online.length Demo.source_node)
       [new_EvaluationResult {| value := [1; 0]%Z |}].
Proof.
  destruct (produced_vectors_are_handed_on_unchanged
              Demo.source_node ["a"] false Demo.stocked_world
              (Online.evaluate_self Demo.source_node ["a"] false
                 Demo.stocked_world).1
              [new_EvaluationResult {| value := [1; 0]%Z |}])
    as [Horigin Hlengths]; [reflexivity|].
  split; [exact Horigin|].
  apply Hlengths; [exact Demo_respects_declared_length|].
  intros _ _ schema stored_result _. simpl. intros Hlook.
  apply lookup_singleton_Some in Hlook as [_ <-]. reflexivity.
Defined.

(** C7 as stated fails for a vector loaded from the storage: the colour node
    declares length 2, the store holds a vector of three entries for schema
    ["a"], and the node returns that vector as it is. *)
Lemma stored_vector_of_another_length_is_returned :
  Online.parents Demo.source_node = []
  /\ Online._should_return_default_vector Demo.source_node ["a"] false = false
  /\ Online.length Demo.source_node = 2
  /\ (Online.evaluate_self Demo.source_node ["a"] false Demo.overlong_world).2
     = Ok [new_EvaluationResult {| value := [1; 0; 0]%Z |}]
  /\ length (value (main (new_EvaluationResult {| value := [1; 0; 0]%Z |})))
     = 3.
Proof. repeat split; reflexivity. Qed.


(** A batch comes back in the order of its schemas. *)
Example Demo_batch_in_order :
  (Online.evaluate_self Demo.source_node ["a"; "b"] false
     {| storage := {[ "colour/a" := [1; 0]%Z; "colour/b" := [0; 1]%Z ]};
        events := [] |})
  = ({| storage := {[ "colour/a" := [1; 0]%Z; "colour/b" := [0; 1]%Z ]};
        events := [StorageLoad "colour/a"; StorageLoad "colour/b"] |},
     Ok [new_EvaluationResult {| value := [1; 0]%Z |};
         new_EvaluationResult {| value := [0; 1]%Z |}]).
Proof. reflexivity. Qed.

(** A schema without a stored vector fails the batch at its position. *)
Example Demo_batch_fails_at_first_missing :
  (Online.evaluate_self Demo.source_node ["a"; "b"; "c"] false
     Demo.stocked_world)
  = ({| storage := storage Demo.stocked_world;
        events := [StorageLoad "colour/a"; StorageLoad "colour/b"] |},
     Raise MissingStoredResultError).
Proof. reflexivity. Qed.

(** Two parents are refused, one is accepted. *)
Example Demo_two_parents_refused :
  (Online.__init__ Demo.colour_node [Demo.blue_parent; Demo.blue_parent]
     Demo.empty_world).2
  = Raise ConfigurationError
  /\ (Online.__init__ Demo.colour_node [Demo.blue_parent] Demo.empty_world).2
     = Ok Demo.embedding_node.
Proof. split; reflexivity. Qed.

(** ** The data loader *)
Section Loader.
Context `{SUR : DataLoader.Surroundings}.

(** *** Registration *)

Lemma register_one_registered self source :
  source ∈ DataLoader._data_loader_sources self ->
  DataLoader.register_data_loader_sources [source] self
  = DataLoader.log DataLoader.WARNING
      "Detected duplicate data loader sources. Configuration: %s"
      (DataLoader.ArgConfig (DataLoader.config source)) self.
Proof.
  intros Hin. unfold DataLoader.register_data_loader_sources. simpl.
  rewrite decide_True by exact Hin. reflexivity.
Qed.

Lemma register_one_new self source :
  source ∉ DataLoader._data_loader_sources self ->
  DataLoader.register_data_loader_sources [source] self
  = DataLoader.add_source source self.
Proof.
  intros Hin. unfold DataLoader.register_data_loader_sources. simpl.
  rewrite decide_False by exact Hin. reflexivity.
Qed.

Lemma register_cons source sources self :
  DataLoader.register_data_loader_sources (source :: sources) self
  = DataLoader.register_data_loader_sources sources
      (DataLoader.register_data_loader_sources [source] self).
Proof. reflexivity. Qed.

(** Registration adds the sources that are new to the set, logs one warning
    for each source it skips and leaves the tasks alone. *)
Lemma register_sources sources : forall self,
  let self' := DataLoader.register_data_loader_sources sources self in
  DataLoader._data_loader_sources self'
  = DataLoader._data_loader_sources self ∪ list_to_set sources
  /\ DataLoader._data_loader_tasks self' = DataLoader._data_loader_tasks self
  /\ DataLoader.uuid4_calls self' = DataLoader.uuid4_calls self
  /\ exists warnings,
       DataLoader.logged self' = DataLoader.logged self ++ warnings
       /\ Forall (fun r => DataLoader.level r = DataLoader.WARNING) warnings
       /\ length warnings + size (DataLoader._data_loader_sources self')
          = length sources + size (DataLoader._data_loader_sources self).
Proof.
  induction sources as [|source sources IH]; intros self.
  - simpl. split; [set_solver|]. split; [reflexivity|]. split; [reflexivity|].
    exists []. rewrite app_nil_r. split; [reflexivity|].
    split; [constructor|reflexivity].
  - cbv zeta. rewrite register_cons.
    destruct (IH (DataLoader.register_data_loader_sources [source] self))
      as (Hset & Htasks & Hcalls & warnings & Hlog & Hwarn & Hcount).
    rewrite Hset in Hcount. rewrite Hset, Htasks, Hcalls, Hlog. clear Hset.
    destruct (decide (source ∈ DataLoader._data_loader_sources self))
      as [Hin|Hnew].
    + rewrite (register_one_registered _ _ Hin) in Hcount |- *.
      simpl in Hcount |- *.
      split; [set_solver|]. split; [reflexivity|]. split; [reflexivity|].
      eexists (_ :: warnings). rewrite <- app_assoc. split; [reflexivity|].
      split; [constructor; [reflexivity|exact Hwarn]|].
      simpl. lia.
    + rewrite (register_one_new _ _ Hnew) in Hcount |- *.
      simpl in Hcount |- *.
      assert (Hsize : size (DataLoader._data_loader_sources self ∪ {[source]})
                      = Datatypes.S (size (DataLoader._data_loader_sources self))).
      { rewrite size_union by set_solver. rewrite size_singleton. lia. }
      split; [set_solver|]. split; [reflexivity|]. split; [reflexivity|].
      exists warnings. split; [reflexivity|]. split; [exact Hwarn|].
      lia.
Qed.

(** *** Load *)

Lemma load_one_step task_ids self source :
  exists self1,
    DataLoader.load_one (task_ids, self) source
    = (task_ids ∪ {[DataLoader.uuid4 (DataLoader.uuid4_calls self)]}, self1)
    /\ DataLoader._data_loader_tasks self1
       = DataLoader._data_loader_tasks self
         ++ [DataLoader.create_task source
               (DataLoader.uuid4 (DataLoader.uuid4_calls self))]
    /\ DataLoader._data_loader_sources self1
       = DataLoader._data_loader_sources self
    /\ DataLoader.uuid4_calls self1
       = Datatypes.S (DataLoader.uuid4_calls self)
    /\ DataLoader.sinks self1 = DataLoader.sinks self.
Proof. eexists. repeat split; reflexivity. Qed.

Lemma load_fold sources : forall task_ids self,
  let r := foldl DataLoader.load_one (task_ids, self) sources in
  r.1 = task_ids
        ∪ list_to_set (DataLoader.drawn_names (DataLoader.uuid4_calls self)
                                   (length sources))
  /\ DataLoader._data_loader_tasks r.2
     = DataLoader._data_loader_tasks self
       ++ zip_with (fun name source => DataLoader.create_task source name)
            (DataLoader.drawn_names (DataLoader.uuid4_calls self) (length sources))
            sources
  /\ DataLoader._data_loader_sources r.2 = DataLoader._data_loader_sources self
  /\ DataLoader.uuid4_calls r.2 = DataLoader.uuid4_calls self + length sources
  /\ DataLoader.sinks r.2 = DataLoader.sinks self.
Proof.
  induction sources as [|source sources IH]; intros task_ids self.
  - simpl. split; [set_solver|]. rewrite app_nil_r.
    repeat split; try reflexivity. lia.
  - cbv zeta.
    change (foldl DataLoader.load_one (task_ids, self) (source :: sources))
      with (foldl DataLoader.load_one
              (DataLoader.load_one (task_ids, self) source) sources).
    destruct (load_one_step task_ids self source)
      as (self1 & Hstep & Htasks1 & Hsources1 & Hcalls1 & Hsinks1).
    rewrite Hstep.
    destruct (IH (task_ids
                  ∪ {[DataLoader.uuid4 (DataLoader.uuid4_calls self)]}) self1)
      as (Hids & Htasks & Hsources & Hcalls & Hsinks).
    rewrite Hids, Htasks, Hsources, Hcalls, Hsinks.
    rewrite Htasks1, Hsources1, Hcalls1, Hsinks1.
    unfold DataLoader.drawn_names. simpl.
    split; [set_solver|]. rewrite <- app_assoc.
    repeat split; try reflexivity. lia.
Qed.

Lemma load_task_ids self :
  (DataLoader.load self).1
  = list_to_set (DataLoader.drawn_names (DataLoader.uuid4_calls self)
                             (size (DataLoader._data_loader_sources self))).
Proof.
  destruct (load_fold (elements (DataLoader._data_loader_sources self)) ∅
              (DataLoader.log DataLoader.INFO
                 "Starting the loading process for %d data source(s)."
                 (DataLoader.ArgInt
                    (size (DataLoader._data_loader_sources self))) self))
    as [Hids _].
  etrans; [exact Hids|]. rewrite (left_id_L ∅ (∪)). reflexivity.
Qed.

Lemma load_tasks self :
  DataLoader._data_loader_tasks (DataLoader.load self).2
  = DataLoader._data_loader_tasks self
    ++ zip_with (fun name source => DataLoader.create_task source name)
         (DataLoader.drawn_names (DataLoader.uuid4_calls self)
                      (size (DataLoader._data_loader_sources self)))
         (elements (DataLoader._data_loader_sources self)).
Proof.
  destruct (load_fold (elements (DataLoader._data_loader_sources self)) ∅
              (DataLoader.log DataLoader.INFO
                 "Starting the loading process for %d data source(s)."
                 (DataLoader.ArgInt
                    (size (DataLoader._data_loader_sources self))) self))
    as (_ & Htasks & _).
  exact Htasks.
Qed.

(** C8. Registering a source that is already registered, that is, one whose
    configuration equals that of a registered source, changes nothing but
    the log, which receives one warning.  A sequence of sources leaves
    registered the union of the earlier sources and the sources of the
    sequence, each once, raising nothing and logging warnings only, one for
    every source skipped.  In particular two sources with one configuration,
    registered on a fresh loader, leave one registered source, for which
    [load] returns one task identifier.  In general [load] returns as many
    task identifiers as there are registered sources, provided the
    identifiers [uuid4] draws during the call are distinct. *)
Theorem registration_dedups_and_load_names_each_source :
  (forall self source registered,
     registered ∈ DataLoader._data_loader_sources self ->
     DataLoader.config registered = DataLoader.config source ->
     DataLoader.register_data_loader_sources [source] self
     = DataLoader.log DataLoader.WARNING
         "Detected duplicate data loader sources. Configuration: %s"
         (DataLoader.ArgConfig (DataLoader.config source)) self)
  /\ (forall self sources,
        let self' := DataLoader.register_data_loader_sources sources self in
        DataLoader._data_loader_sources self'
        = DataLoader._data_loader_sources self ∪ list_to_set sources
        /\ DataLoader._data_loader_tasks self'
           = DataLoader._data_loader_tasks self
        /\ exists warnings,
             DataLoader.logged self' = DataLoader.logged self ++ warnings
             /\ Forall (fun r => DataLoader.level r = DataLoader.WARNING)
                       warnings
             /\ length warnings
                + size (DataLoader._data_loader_sources self')
                = length sources
                  + size (DataLoader._data_loader_sources self))
  /\ (forall app_config sinks source1 source2,
        DataLoader.config source1 = DataLoader.config source2 ->
        let self' :=
          DataLoader.register_data_loader_sources [source1; source2]
            (DataLoader.__init__ app_config sinks) in
        size (DataLoader._data_loader_sources self') = 1
        /\ size (DataLoader.load self').1 = 1)
  /\ (forall self,
        NoDup (DataLoader.drawn_names (DataLoader.uuid4_calls self)
                 (size (DataLoader._data_loader_sources self))) ->
        size (DataLoader.load self).1
        = size (DataLoader._data_loader_sources self)).
Proof.
  assert (Hload : forall self,
             NoDup (DataLoader.drawn_names (DataLoader.uuid4_calls self)
                      (size (DataLoader._data_loader_sources self))) ->
             size (DataLoader.load self).1
             = size (DataLoader._data_loader_sources self)).
  { intros self Hfresh. rewrite load_task_ids.
    rewrite (size_list_to_set _ Hfresh).
    unfold DataLoader.drawn_names. rewrite length_fmap, length_seq. reflexivity. }
  split; [|split; [|split; [|exact Hload]]].
  - intros self source registered Hin Hconfig.
    apply register_one_registered.
    destruct registered as [c1], source as [c2]. simpl in Hconfig.
    subst c2. exact Hin.
  - intros self sources.
    destruct (register_sources sources self)
      as (Hset & Htasks & _ & Hlog).
    auto.
  - intros app_config sinks [c1] [c2] Hconfig. simpl in Hconfig. subst c2.
    set (source := {| DataLoader.config := c1 |}).
    intros self'.
    pose proof (register_sources [source; source]
                  (DataLoader.__init__ app_config sinks)) as Hreg.
    cbv zeta in Hreg. fold self' in Hreg. destruct Hreg as (Hset & _).
    change (DataLoader._data_loader_sources
              (DataLoader.__init__ app_config sinks))
      with (∅ : gset DataLoader.DataLoaderSource) in Hset.
    assert (Hone : DataLoader._data_loader_sources self' = {[ source ]})
      by (rewrite Hset; set_solver).
    assert (Hsize : size (DataLoader._data_loader_sources self') = 1)
      by (rewrite Hone; apply size_singleton).
    split; [exact Hsize|].
    rewrite Hload; [exact Hsize|].
    rewrite Hsize. apply NoDup_singleton.
Qed.

(** *** Status *)

Lemma get_task_status_by_name_status self task_id :
  (DataLoader.get_task_status_by_name task_id self).2
  = Ok (DataLoader.render (DataLoader.getStatus self task_id)).
Proof.
  unfold DataLoader.get_task_status_by_name, DataLoader.getStatus.
  destruct (List.find _ (DataLoader._data_loader_tasks self)) as [task|];
    [|reflexivity].
  unfold DataLoader.Task.done, DataLoader.Task.cancelled, bind,
    DataLoader.lift, DataLoader.Task.exception.
  destruct (DataLoader.Task.state task); reflexivity.
Qed.

Lemma append_to_list s1 s2 :
  String.list_ascii_of_string (s1 +:+ s2)
  = String.list_ascii_of_string s1 ++ String.list_ascii_of_string s2.
Proof. induction s1 as [|a s1 IH]; simpl; [reflexivity|]. rewrite IH. reflexivity. Qed.

Lemma append_inj_l s1 s2 suffix : s1 +:+ suffix = s2 +:+ suffix -> s1 = s2.
Proof.
  intros Heq. apply (f_equal String.list_ascii_of_string) in Heq.
  rewrite !append_to_list in Heq. apply app_inv_tail in Heq.
  apply (f_equal String.string_of_list_ascii) in Heq.
  rewrite !String.string_of_list_ascii_of_string in Heq. exact Heq.
Qed.

(** The five answers are pairwise distinct, and an answer determines the
    detail of a failure. *)
Lemma render_inj st1 st2 :
  DataLoader.render st1 = DataLoader.render st2 -> st1 = st2.
Proof.
  destruct st1 as [| | |detail1|], st2 as [| | |detail2|]; simpl;
    intros Heq; try reflexivity; try discriminate.
  inversion Heq as [Hdetail].
  change (detail1 +:+ ". For traceback, check the logs."
          = detail2 +:+ ". For traceback, check the logs.") in Hdetail.
  apply append_inj_l in Hdetail.
  rewrite Hdetail. reflexivity.
Qed.

(** *** Tasks *)

Lemma for_each_total {S A B} (f : A -> Eff S B) (g : A -> B) :
  (forall x s, (f x s).2 = Ok (g x)) ->
  forall xs s, (for_each f xs s).2 = Ok (map g xs).
Proof.
  intros Hbody. induction xs as [|x xs IH]; intros s; [reflexivity|].
  rewrite for_each_cons. specialize (Hbody x s).
  destruct (f x s) as [s1 [y|e]]; simpl in Hbody; [|discriminate].
  specialize (IH s1). destruct (for_each f xs s1) as [s2 [ys|e]];
    simpl in IH; [|discriminate].
  inversion Hbody. inversion IH. reflexivity.
Qed.

Lemma put_logged_outcome what source data self :
  (DataLoader.put_logged what source data self).2 = Ok tt.
Proof.
  unfold DataLoader.put_logged, bind, DataLoader.modify, ret.
  destruct DataLoader.debug_enabled; reflexivity.
Qed.

Lemma put_logged_tasks what source data self :
  DataLoader._data_loader_tasks (DataLoader.put_logged what source data self).1
  = DataLoader._data_loader_tasks self.
Proof.
  unfold DataLoader.put_logged, bind, DataLoader.modify, ret.
  destruct DataLoader.debug_enabled; reflexivity.
Qed.

Lemma read_and_put_data_outcome source self :
  (DataLoader.__read_and_put_data source self).2
  = DataLoader.task_outcome source.
Proof.
  unfold DataLoader.__read_and_put_data, DataLoader.task_outcome, bind at 1,
    DataLoader.lift.
  destruct (DataLoader.__read_data _ _ _) as [[data|chunks failure|type_repr]|e];
    try reflexivity.
  - unfold bind at 1.
    pose proof (put_logged_outcome
                  "Data frame of size: %s has been loaded into memory. Beginning persistence process."
                  source data self) as Hput.
    destruct (DataLoader.put_logged _ source data self) as [s1 [[]|e]];
      simpl in Hput; [reflexivity|discriminate].
  - unfold bind at 1 2.
    pose proof (for_each_total
                  (DataLoader.put_logged
                     "Chunk of size: %s has been loaded into memory. Beginning persistence process."
                     source)
                  (fun _ => tt)
                  (fun data s => put_logged_outcome _ source data s)
                  chunks self) as Hchunks.
    destruct (for_each _ chunks self) as [s1 [units|e]];
      simpl in Hchunks; [|discriminate].
    destruct failure; reflexivity.
Qed.

Lemma read_and_put_data_tasks source self :
  DataLoader._data_loader_tasks (DataLoader.__read_and_put_data source self).1
  = DataLoader._data_loader_tasks self.
Proof.
  unfold DataLoader.__read_and_put_data, bind at 1, DataLoader.lift.
  destruct (DataLoader.__read_data _ _ _) as [[data|chunks failure|type_repr]|e];
    try reflexivity.
  - unfold bind at 1.
    pose proof (put_logged_outcome
                  "Data frame of size: %s has been loaded into memory. Beginning persistence process."
                  source data self) as Hput.
    pose proof (put_logged_tasks
                  "Data frame of size: %s has been loaded into memory. Beginning persistence process."
                  source data self) as Htasks.
    destruct (DataLoader.put_logged _ source data self) as [s1 [[]|e]];
      simpl in Hput, Htasks; [exact Htasks|discriminate].
  - unfold bind at 1 2.
    pose proof (for_each_invariant
                  (DataLoader.put_logged
                     "Chunk of size: %s has been loaded into memory. Beginning persistence process."
                     source)
                  (fun s => DataLoader._data_loader_tasks s
                            = DataLoader._data_loader_tasks self)
                  (fun data s Hs =>
                     eq_trans (put_logged_tasks _ source data s) Hs)
                  chunks self eq_refl) as Htasks.
    destruct (for_each _ chunks self) as [s1 [units|e]];
      simpl in Htasks; [|exact Htasks].
    destruct failure; exact Htasks.
Qed.

(** *** The event loop *)

Lemma run_task_pending i self task :
  DataLoader._data_loader_tasks self !! i = Some task ->
  DataLoader.Task.state task = DataLoader.Task.Pending ->
  DataLoader._data_loader_tasks (DataLoader.run_task i self)
  = <[i := DataLoader.Task.with_state
             (DataLoader.outcome_state
                (DataLoader.task_outcome (DataLoader.Task.source task)))
             task]>
      (DataLoader._data_loader_tasks self).
Proof.
  intros Hi Hpending. unfold DataLoader.run_task. rewrite Hi, Hpending.
  pose proof (read_and_put_data_outcome (DataLoader.Task.source task) self)
    as Houtcome.
  pose proof (read_and_put_data_tasks (DataLoader.Task.source task) self)
    as Htasks.
  destruct (DataLoader.__read_and_put_data (DataLoader.Task.source task) self)
    as [self1 outcome].
  simpl in Houtcome, Htasks. subst outcome. simpl. rewrite Htasks.
  reflexivity.
Qed.

(** A step of the loop on the task at position [i] replaces that task by a
    task of the same name, or changes no task. *)
Lemma loop_step_tasks self self' :
  DataLoader.loop_step self self' ->
  exists i,
    DataLoader._data_loader_tasks self' = DataLoader._data_loader_tasks self
    \/ exists task st,
         DataLoader._data_loader_tasks self !! i = Some task
         /\ DataLoader._data_loader_tasks self'
            = <[i := DataLoader.Task.with_state st task]>
                (DataLoader._data_loader_tasks self).
Proof.
  intros [i s|i s]; exists i.
  - destruct (DataLoader._data_loader_tasks s !! i) as [task|] eqn:Hi.
    + destruct (DataLoader.Task.state task) eqn:Hst.
      * right. eexists task, _. split; [reflexivity|].
        exact (run_task_pending i s task Hi Hst).
      * left. unfold DataLoader.run_task. rewrite Hi, Hst. reflexivity.
      * left. unfold DataLoader.run_task. rewrite Hi, Hst. reflexivity.
      * left. unfold DataLoader.run_task. rewrite Hi, Hst. reflexivity.
    + left. unfold DataLoader.run_task. rewrite Hi. reflexivity.
  - unfold DataLoader.cancel_task.
    destruct (DataLoader._data_loader_tasks s !! i) as [task|] eqn:Hi;
      [|left; reflexivity].
    destruct (DataLoader.Task.state task) eqn:Hst;
      try (left; reflexivity).
    right. exists task, DataLoader.Task.Cancelled. split; reflexivity.
Qed.

Lemma find_insert_other {A} (P : A -> bool) (l : list A) : forall i x y,
  l !! i = Some x -> P x = false -> P y = false ->
  List.find P (<[i := y]> l) = List.find P l.
Proof.
  induction l as [|a l IH]; intros i x y Hi Hx Hy; [reflexivity|].
  destruct i as [|i]; simpl in Hi |- *.
  - inversion Hi; subst a. rewrite Hx, Hy. reflexivity.
  - rewrite (IH i x y Hi Hx Hy). reflexivity.
Qed.

Lemma getStatus_tasks self self' task_id :
  DataLoader._data_loader_tasks self' = DataLoader._data_loader_tasks self ->
  DataLoader.getStatus self' task_id = DataLoader.getStatus self task_id.
Proof. intros Heq. unfold DataLoader.getStatus. rewrite Heq. reflexivity. Qed.

(** C9. The status query never raises and answers with the rendering of
    exactly one of the five statuses: unknown when no task has the
    identifier, else running, cancelled, failed with the text of the
    exception, or succeeded, as the state of the task says.  [load] only
    creates pending tasks, one per registered source, and runs no body, so
    it can raise nothing of what a body raises.  What a body returns or
    raises depends on its source alone; the loop keeps it on the task, and a
    step of the loop on one task leaves every other task, and the status of
    every identifier but that task's, as they were. *)
Theorem ingestion_failures_stay_on_their_task :
  (forall self task_id,
     (DataLoader.get_task_status_by_name task_id self).2
     = Ok (DataLoader.render (DataLoader.getStatus self task_id)))
  /\ (forall st1 st2,
        DataLoader.render st1 = DataLoader.render st2 -> st1 = st2)
  /\ (forall self,
        exists created,
          DataLoader._data_loader_tasks (DataLoader.load self).2
          = DataLoader._data_loader_tasks self ++ created
          /\ Forall (fun task =>
                       DataLoader.Task.state task = DataLoader.Task.Pending)
                    created
          /\ DataLoader.Task.source <$> created
             = elements (DataLoader._data_loader_sources self))
  /\ (forall source self,
        (DataLoader.__read_and_put_data source self).2
        = DataLoader.task_outcome source)
  /\ (forall i self task,
        DataLoader._data_loader_tasks self !! i = Some task ->
        DataLoader.Task.state task = DataLoader.Task.Pending ->
        DataLoader._data_loader_tasks (DataLoader.run_task i self) !! i
        = Some (DataLoader.Task.with_state
                  (DataLoader.outcome_state
                     (DataLoader.task_outcome (DataLoader.Task.source task)))
                  task))
  /\ (forall self self',
        DataLoader.loop_step self self' ->
        exists i,
          (forall j, j <> i ->
             DataLoader._data_loader_tasks self' !! j
             = DataLoader._data_loader_tasks self !! j)
          /\ forall task_id,
               DataLoader.Task.get_name
                 <$> DataLoader._data_loader_tasks self !! i
               <> Some task_id ->
               DataLoader.getStatus self' task_id
               = DataLoader.getStatus self task_id).
Proof.
  split; [exact get_task_status_by_name_status|].
  split; [exact render_inj|].
  split; [|split; [exact read_and_put_data_outcome|split]].
  - intros self. eexists. split; [apply load_tasks|]. split.
    + unfold DataLoader.drawn_names.
      generalize (seq (DataLoader.uuid4_calls self)
                      (size (DataLoader._data_loader_sources self))).
      induction (elements (DataLoader._data_loader_sources self))
        as [|source sources IH]; intros [|n names]; simpl;
        constructor; [reflexivity|apply IH].
    + assert (Hlen : length (DataLoader.drawn_names
                               (DataLoader.uuid4_calls self)
                               (size (DataLoader._data_loader_sources self)))
                     = length (elements
                                 (DataLoader._data_loader_sources self))).
      { unfold DataLoader.drawn_names. rewrite length_fmap, length_seq.
        reflexivity. }
      revert Hlen.
      generalize (DataLoader.drawn_names (DataLoader.uuid4_calls self)
                    (size (DataLoader._data_loader_sources self))).
      induction (elements (DataLoader._data_loader_sources self))
        as [|source sources IH]; intros [|name names] Hlen;
        simpl in Hlen |- *; try discriminate; [reflexivity|].
      f_equal. apply IH. lia.
  - intros i self task Hi Hpending.
    rewrite (run_task_pending i self task Hi Hpending).
    apply list_lookup_insert_eq. exact (lookup_lt_Some _ _ _ Hi).
  - intros self self' Hstep.
    destruct (loop_step_tasks self self' Hstep)
      as [i [Hsame|(task & st & Hi & Hset)]]; exists i.
    + split; [intros j _; rewrite Hsame; reflexivity|].
      intros task_id _. exact (getStatus_tasks _ _ _ Hsame).
    + split; [intros j Hj; rewrite Hset; apply list_lookup_insert_ne; auto|].
      intros task_id Hname. rewrite Hi in Hname. simpl in Hname.
      unfold DataLoader.getStatus. rewrite Hset.
      rewrite (find_insert_other _ _ i task
                 (DataLoader.Task.with_state st task) Hi);
        [reflexivity| |];
        apply bool_decide_eq_false_2; simpl; congruence.
Qed.
End Loader.

(** *** Further properties of the loader *)
Section Ingestion.
Context {SUR : DataLoader.Surroundings}.

Lemma get_task_status_by_name_frame self task_id :
  (DataLoader.get_task_status_by_name task_id self).1
  = match
      List.find
        (fun task => bool_decide (DataLoader.Task.get_name task = task_id))
        (DataLoader._data_loader_tasks self)
    with
    | Some task =>
        match DataLoader.Task.state task with
        | DataLoader.Task.Failed exc =>
            DataLoader.log DataLoader.ERROR "traceback.format_exception"
              (DataLoader.ArgException exc) self
        | _ => self
        end
    | None => self
    end.
Proof.
  unfold DataLoader.get_task_status_by_name.
  destruct (List.find _ (DataLoader._data_loader_tasks self)) as [task|];
    [|reflexivity].
  unfold DataLoader.Task.done, DataLoader.Task.cancelled, bind,
    DataLoader.lift, DataLoader.Task.exception.
  destruct (DataLoader.Task.state task); reflexivity.
Qed.

(** X6. A status query changes nothing of the loader but the log: the
    registered sources, the tasks, the sinks and the identifiers drawn are
    as before.  The log is as before too unless the task found has failed,
    in which case every query hands one [ERROR] record with the exception
    to the logger. *)
Theorem status_query_only_logs
    (self : DataLoader.t) (task_id : string) :
  let self' := (DataLoader.get_task_status_by_name task_id self).1 in
  DataLoader._data_loader_sources self' = DataLoader._data_loader_sources self
  /\ DataLoader._data_loader_tasks self' = DataLoader._data_loader_tasks self
  /\ DataLoader.sinks self' = DataLoader.sinks self
  /\ DataLoader.uuid4_calls self' = DataLoader.uuid4_calls self
  /\ DataLoader.logged self'
     = DataLoader.logged self
       ++ match
            List.find
              (fun task =>
                 bool_decide (DataLoader.Task.get_name task = task_id))
              (DataLoader._data_loader_tasks self)
          with
          | Some task =>
              match DataLoader.Task.state task with
              | DataLoader.Task.Failed exc =>
                  [{| DataLoader.level := DataLoader.ERROR;
                      DataLoader.msg := "traceback.format_exception";
                      DataLoader.arg := DataLoader.ArgException exc |}]
              | _ => []
              end
          | None => []
          end.
Proof.
  cbv zeta. rewrite get_task_status_by_name_frame.
  destruct (List.find _ (DataLoader._data_loader_tasks self)) as [task|];
    [destruct (DataLoader.Task.state task)|];
    rewrite ?app_nil_r; repeat split; reflexivity.
Qed.

(** X7. Registering a sequence a second time registers nothing new and logs
    one warning for each of its sources; and the sources left registered do
    not depend on the order of the sequence. *)
Theorem registration_is_idempotent
    (self : DataLoader.t) (sources sources' : list DataLoader.DataLoaderSource) :
  let once := DataLoader.register_data_loader_sources sources self in
  let twice := DataLoader.register_data_loader_sources sources once in
  DataLoader._data_loader_sources twice = DataLoader._data_loader_sources once
  /\ (exists warnings,
        DataLoader.logged twice = DataLoader.logged once ++ warnings
        /\ length warnings = length sources
        /\ Forall (fun r => DataLoader.level r = DataLoader.WARNING) warnings)
  /\ (sources ≡ₚ sources' ->
      DataLoader._data_loader_sources
        (DataLoader.register_data_loader_sources sources' self)
      = DataLoader._data_loader_sources once).
Proof.
  intros once twice.
  destruct (register_sources sources self) as (Hset1 & _).
  destruct (register_sources sources once)
    as (Hset2 & _ & _ & warnings & Hlog & Hwarn & Hcount).
  fold once in Hset1. fold twice in Hset2, Hlog, Hcount.
  assert (Hsame : DataLoader._data_loader_sources twice
                  = DataLoader._data_loader_sources once).
  { rewrite Hset2, Hset1. set_solver. }
  split; [exact Hsame|]. split.
  - exists warnings. split; [exact Hlog|]. split; [|exact Hwarn].
    rewrite Hsame in Hcount. lia.
  - intros Hperm.
    destruct (register_sources sources' self) as (Hset3 & _).
    rewrite Hset3, Hset1. apply set_eq. intros source.
    rewrite !elem_of_union, !elem_of_list_to_set, Hperm. reflexivity.
Qed.

Lemma load_frame self :
  DataLoader._data_loader_sources (DataLoader.load self).2
  = DataLoader._data_loader_sources self
  /\ DataLoader.sinks (DataLoader.load self).2 = DataLoader.sinks self
  /\ DataLoader.uuid4_calls (DataLoader.load self).2
     = DataLoader.uuid4_calls self
       + size (DataLoader._data_loader_sources self).
Proof.
  destruct (load_fold (elements (DataLoader._data_loader_sources self)) ∅
              (DataLoader.log DataLoader.INFO
                 "Starting the loading process for %d data source(s)."
                 (DataLoader.ArgInt
                    (size (DataLoader._data_loader_sources self))) self))
    as (_ & _ & Hsources & Hcalls & Hsinks).
  split; [exact Hsources|]. split; [exact Hsinks|exact Hcalls].
Qed.

Lemma created_tasks names : forall sources,
  length names = length sources ->
  Forall (fun task => DataLoader.Task.state task = DataLoader.Task.Pending)
         (zip_with (fun name source => DataLoader.create_task source name)
                   names sources)
  /\ DataLoader.Task.source
       <$> zip_with (fun name source => DataLoader.create_task source name)
             names sources
     = sources
  /\ DataLoader.Task.get_name
       <$> zip_with (fun name source => DataLoader.create_task source name)
             names sources
     = names.
Proof.
  induction names as [|name names IH]; intros [|source sources] Hlen;
    simpl in Hlen; try discriminate.
  - repeat split. constructor.
  - destruct (IH sources ltac:(lia)) as (Hpending & Hsources & Hnames).
    simpl. split; [constructor; [reflexivity|exact Hpending]|].
    split; f_equal; assumption.
Qed.

Lemma drawn_names_length c n : length (DataLoader.drawn_names c n) = n.
Proof. unfold DataLoader.drawn_names. rewrite length_fmap. apply length_seq. Qed.

Lemma load_created self :
  exists created,
    DataLoader._data_loader_tasks (DataLoader.load self).2
    = DataLoader._data_loader_tasks self ++ created
    /\ Forall (fun task =>
                 DataLoader.Task.state task = DataLoader.Task.Pending)
              created
    /\ DataLoader.Task.source <$> created
       = elements (DataLoader._data_loader_sources self)
    /\ DataLoader.Task.get_name <$> created
       = DataLoader.drawn_names (DataLoader.uuid4_calls self)
           (size (DataLoader._data_loader_sources self)).
Proof.
  eexists. split; [apply load_tasks|].
  apply created_tasks. apply drawn_names_length.
Qed.

(** X8. [load] leaves the registered sources and the sinks as they are, so
    a second [load] creates a task for every registered source again, next
    to the tasks of the first; when the identifiers drawn during the two
    calls are distinct, the two calls return disjoint sets of
    identifiers. *)
Theorem load_again_creates_tasks_again (self : DataLoader.t) :
  let first := DataLoader.load self in
  let second := DataLoader.load first.2 in
  DataLoader._data_loader_sources second.2
  = DataLoader._data_loader_sources self
  /\ DataLoader.sinks second.2 = DataLoader.sinks self
  /\ (exists created1 created2,
        DataLoader._data_loader_tasks second.2
        = DataLoader._data_loader_tasks self ++ created1 ++ created2
        /\ DataLoader.Task.source <$> created1
           = elements (DataLoader._data_loader_sources self)
        /\ DataLoader.Task.source <$> created2
           = elements (DataLoader._data_loader_sources self))
  /\ (NoDup (DataLoader.drawn_names (DataLoader.uuid4_calls self)
               (size (DataLoader._data_loader_sources self)
                + size (DataLoader._data_loader_sources self))) ->
      first.1 ## second.1).
Proof.
  intros first second.
  destruct (load_frame self) as (Hsources1 & Hsinks1 & Hcalls1).
  destruct (load_frame first.2) as (Hsources2 & Hsinks2 & _).
  fold first in Hsources1, Hsinks1, Hcalls1.
  fold second in Hsources2, Hsinks2.
  split; [rewrite Hsources2; exact Hsources1|].
  split; [rewrite Hsinks2; exact Hsinks1|]. split.
  - destruct (load_created self) as (created1 & Htasks1 & _ & Hsrc1 & _).
    destruct (load_created first.2) as (created2 & Htasks2 & _ & Hsrc2 & _).
    fold first in Htasks1. fold second in Htasks2.
    exists created1, created2.
    split; [rewrite Htasks2, Htasks1, <- app_assoc; reflexivity|].
    split; [exact Hsrc1|]. rewrite Hsrc2, Hsources1. reflexivity.
  - intros Hfresh. unfold first, second.
    rewrite !load_task_ids. fold first. rewrite Hsources1, Hcalls1.
    unfold DataLoader.drawn_names in *.
    rewrite seq_app, fmap_app in Hfresh.
    apply NoDup_app in Hfresh as (_ & Hdisjoint & _).
    intros name Hin1 Hin2.
    apply elem_of_list_to_set in Hin1. apply elem_of_list_to_set in Hin2.
    exact (Hdisjoint name Hin1 Hin2).
Qed.

Lemma find_app {A} (P : A -> bool) (l1 l2 : list A) :
  List.find P (l1 ++ l2)
  = match List.find P l1 with
    | Some x => Some x
    | None => List.find P l2
    end.
Proof.
  induction l1 as [|a l1 IH]; simpl; [reflexivity|].
  destruct (P a); [reflexivity|exact IH].
Qed.

Lemma find_none_2 {A} (P : A -> bool) (l : list A) :
  (forall x, x ∈ l -> P x = false) -> List.find P l = None.
Proof.
  induction l as [|a l IH]; intros Hall; simpl; [reflexivity|].
  rewrite (Hall a) by apply list_elem_of_here.
  apply IH. intros x Hx. apply Hall. apply list_elem_of_further. exact Hx.
Qed.

Lemma find_created task_id names : forall sources,
  length names = length sources ->
  task_id ∈ names ->
  exists source,
    List.find
      (fun task => bool_decide (DataLoader.Task.get_name task = task_id))
      (zip_with (fun name source => DataLoader.create_task source name)
                names sources)
    = Some (DataLoader.create_task source task_id).
Proof.
  induction names as [|name names IH]; intros [|source sources] Hlen Hin;
    simpl in Hlen; try discriminate.
  - apply elem_of_nil in Hin. destruct Hin.
  - simpl. destruct (decide (name = task_id)) as [->|Hne].
    + exists source. rewrite bool_decide_eq_true_2 by reflexivity.
      reflexivity.
    + rewrite bool_decide_eq_false_2 by exact Hne.
      apply elem_of_cons in Hin as [Heq|Hin]; [congruence|].
      apply IH; [lia|exact Hin].
Qed.

(** X9. When no earlier task bears one of the identifiers drawn, every
    identifier [load] returns names a task right away: its status is
    running. *)
Theorem loaded_ids_are_running (self : DataLoader.t) (task_id : string) :
  (forall task,
     task ∈ DataLoader._data_loader_tasks self ->
     DataLoader.Task.get_name task
     ∉ DataLoader.drawn_names (DataLoader.uuid4_calls self)
         (size (DataLoader._data_loader_sources self))) ->
  task_id ∈ (DataLoader.load self).1 ->
  DataLoader.getStatus (DataLoader.load self).2 task_id = DataLoader.Running
  /\ (DataLoader.get_task_status_by_name task_id (DataLoader.load self).2).2
     = Ok (Some "Task is still running").
Proof.
  intros Hfresh Hin.
  rewrite load_task_ids in Hin. apply elem_of_list_to_set in Hin.
  assert (Hstatus : DataLoader.getStatus (DataLoader.load self).2 task_id
                    = DataLoader.Running).
  { unfold DataLoader.getStatus. rewrite load_tasks, find_app.
    rewrite find_none_2.
    - destruct (find_created task_id
                  (DataLoader.drawn_names (DataLoader.uuid4_calls self)
                     (size (DataLoader._data_loader_sources self)))
                  (elements (DataLoader._data_loader_sources self))
                  (drawn_names_length _ _) Hin) as [source Hfound].
      match goal with
      | |- match ?found with _ => _ end = _ =>
          replace found with (Some (DataLoader.create_task source task_id))
            by (symmetry; exact Hfound)
      end.
      reflexivity.
    - intros task Htask. apply bool_decide_eq_false_2. intros Heq.
      apply (Hfresh task Htask). rewrite Heq. exact Hin. }
  split; [exact Hstatus|].
  rewrite get_task_status_by_name_status, Hstatus. reflexivity.
Qed.

Lemma put_logged_sinks what source data self :
  DataLoader.sinks (DataLoader.put_logged what source data self).1
  = <[source := default [] (DataLoader.sinks self !! source) ++ [data]]>
      (DataLoader.sinks self).
Proof.
  unfold DataLoader.put_logged, bind, DataLoader.modify, ret.
  destruct DataLoader.debug_enabled; reflexivity.
Qed.

Lemma for_each_put_logged_sinks what source : forall chunks self,
  default []
    (DataLoader.sinks
       (for_each (DataLoader.put_logged what source) chunks self).1
     !! source)
  = default [] (DataLoader.sinks self !! source) ++ chunks
  /\ forall other, other <> source ->
       DataLoader.sinks
         (for_each (DataLoader.put_logged what source) chunks self).1
       !! other
       = DataLoader.sinks self !! other.
Proof.
  induction chunks as [|chunk chunks IH]; intros self.
  - simpl. rewrite app_nil_r. auto.
  - rewrite for_each_cons.
    pose proof (put_logged_outcome what source chunk self) as Hok.
    pose proof (put_logged_sinks what source chunk self) as Hsinks.
    destruct (DataLoader.put_logged what source chunk self) as [s1 [[]|e]];
      simpl in Hok, Hsinks; [|discriminate].
    destruct (IH s1) as [Hown Hothers].
    destruct (for_each (DataLoader.put_logged what source) chunks s1)
      as [s2 [units|e]]; simpl in Hown, Hothers |- *.
    + rewrite Hown, Hsinks, lookup_insert_eq. simpl.
      rewrite <- app_assoc. split; [reflexivity|].
      intros other Hne. rewrite (Hothers other Hne), Hsinks.
      apply lookup_insert_ne. congruence.
    + rewrite Hown, Hsinks, lookup_insert_eq. simpl.
      rewrite <- app_assoc. split; [reflexivity|].
      intros other Hne. rewrite (Hothers other Hne), Hsinks.
      apply lookup_insert_ne. congruence.
Qed.

(** X10. The body of a task appends to the sink of its own source the data
    frames the reader yields, in order, and touches no other sink and no
    task.  The chunks a chunked reader yielded before it failed stay in the
    sink; a read that raises, or that hands back an object of an unexpected
    type, puts nothing. *)
Theorem task_body_feeds_its_own_sink
    (source : DataLoader.DataLoaderSource) (self : DataLoader.t) :
  let self' := (DataLoader.__read_and_put_data source self).1 in
  default [] (DataLoader.sinks self' !! source)
  = default [] (DataLoader.sinks self !! source) ++ delivered source
  /\ (forall other, other <> source ->
        DataLoader.sinks self' !! other = DataLoader.sinks self !! other)
  /\ DataLoader._data_loader_tasks self' = DataLoader._data_loader_tasks self.
Proof.
  cbv zeta. split; [|split; [|apply read_and_put_data_tasks]].
  - unfold DataLoader.__read_and_put_data, delivered, bind at 1,
      DataLoader.lift.
    destruct (DataLoader.__read_data _ _ _)
      as [[data|chunks failure|type_repr]|e]; simpl;
      rewrite ?app_nil_r; try reflexivity.
    + unfold bind at 1.
      pose proof (put_logged_outcome
                    "Data frame of size: %s has been loaded into memory. Beginning persistence process."
                    source data self) as Hok.
      pose proof (put_logged_sinks
                    "Data frame of size: %s has been loaded into memory. Beginning persistence process."
                    source data self) as Hsinks.
      destruct (DataLoader.put_logged _ source data self) as [s1 [[]|e]];
        simpl in Hok, Hsinks; [|discriminate].
      simpl. rewrite Hsinks, lookup_insert_eq. reflexivity.
    + unfold bind at 1 2.
      destruct (for_each_put_logged_sinks
                  "Chunk of size: %s has been loaded into memory. Beginning persistence process."
                  source chunks self) as [Hown _].
      pose proof (for_each_total
                    (DataLoader.put_logged
                       "Chunk of size: %s has been loaded into memory. Beginning persistence process."
                       source)
                    (fun _ => tt)
                    (fun data s => put_logged_outcome _ source data s)
                    chunks self) as Hok.
      destruct (for_each _ chunks self) as [s1 [units|e]];
        simpl in Hown, Hok; [|discriminate].
      destruct failure; exact Hown.
  - intros other Hne.
    unfold DataLoader.__read_and_put_data, bind at 1, DataLoader.lift.
    destruct (DataLoader.__read_data _ _ _)
      as [[data|chunks failure|type_repr]|e]; simpl; try reflexivity.
    + unfold bind at 1.
      pose proof (put_logged_outcome
                    "Data frame of size: %s has been loaded into memory. Beginning persistence process."
                    source data self) as Hok.
      pose proof (put_logged_sinks
                    "Data frame of size: %s has been loaded into memory. Beginning persistence process."
                    source data self) as Hsinks.
      destruct (DataLoader.put_logged _ source data self) as [s1 [[]|e]];
        simpl in Hok, Hsinks; [|discriminate].
      simpl. rewrite Hsinks. apply lookup_insert_ne. congruence.
    + unfold bind at 1 2.
      destruct (for_each_put_logged_sinks
                  "Chunk of size: %s has been loaded into memory. Beginning persistence process."
                  source chunks self) as [_ Hothers].
      specialize (Hothers other Hne).
      pose proof (for_each_total
                    (DataLoader.put_logged
                       "Chunk of size: %s has been loaded into memory. Beginning persistence process."
                       source)
                    (fun _ => tt)
                    (fun data s => put_logged_outcome _ source data s)
                    chunks self) as Hok.
      destruct (for_each _ chunks self) as [s1 [units|e]];
        simpl in Hothers, Hok; [|discriminate].
      destruct failure; exact Hothers.
Qed.

Lemma find_first {A} (P : A -> bool) (l : list A) : forall i x,
  l !! i = Some x ->
  P x = true ->
  (forall j y, j < i -> l !! j = Some y -> P y = false) ->
  List.find P l = Some x.
Proof.
  induction l as [|a l IH]; intros i x Hi Hx Hbefore; [discriminate|].
  destruct i as [|i]; simpl in Hi |- *.
  - inversion Hi; subst a. rewrite Hx. reflexivity.
  - rewrite (Hbefore 0 a) by (simpl; auto with lia).
    apply (IH i x Hi Hx). intros j y Hj Hy.
    apply (Hbefore (S j) y); [lia|exact Hy].
Qed.

(** X11. Once the loop has run the body of a pending task, the first to
    bear its name, a status query under that name answers succeeded when
    the read of its source went through, and failed with the text of the
    exception when the read raised. *)
Theorem status_after_run_reports_the_read
    (i : nat) (self : DataLoader.t) (task : DataLoader.Task.t) :
  DataLoader._data_loader_tasks self !! i = Some task ->
  DataLoader.Task.state task = DataLoader.Task.Pending ->
  (forall j other,
     j < i ->
     DataLoader._data_loader_tasks self !! j = Some other ->
     DataLoader.Task.get_name other <> DataLoader.Task.get_name task) ->
  (DataLoader.get_task_status_by_name (DataLoader.Task.get_name task)
     (DataLoader.run_task i self)).2
  = Ok (match DataLoader.task_outcome (DataLoader.Task.source task) with
        | Ok _ => Some "Task completed successfully"
        | Raise exc =>
            Some ("Task failed with exception: " +:+ exc_str exc
                  +:+ ". For traceback, check the logs.")
        end).
Proof.
  intros Hi Hpending Hfirst.
  rewrite get_task_status_by_name_status. unfold DataLoader.getStatus.
  rewrite (run_task_pending i self task Hi Hpending).
  rewrite (find_first _ _ i
             (DataLoader.Task.with_state
                (DataLoader.outcome_state
                   (DataLoader.task_outcome (DataLoader.Task.source task)))
                task)).
  - simpl. destruct (DataLoader.task_outcome (DataLoader.Task.source task));
      reflexivity.
  - apply list_lookup_insert_eq. exact (lookup_lt_Some _ _ _ Hi).
  - apply bool_decide_eq_true_2. reflexivity.
  - intros j other Hj Hother.
    rewrite list_lookup_insert_ne in Hother by lia.
    apply bool_decide_eq_false_2. exact (Hfirst j other Hj Hother).
Qed.

(** X12. On a loader without registered sources [load] returns no
    identifier and creates no task; and a status query under an identifier
    no task bears answers [None] and logs nothing. *)
Theorem load_without_sources_does_nothing (self : DataLoader.t) :
  DataLoader._data_loader_sources self = ∅ ->
  (DataLoader.load self).1 = ∅
  /\ DataLoader._data_loader_tasks (DataLoader.load self).2
     = DataLoader._data_loader_tasks self
  /\ forall task_id,
       (forall task,
          task ∈ DataLoader._data_loader_tasks self ->
          DataLoader.Task.get_name task <> task_id) ->
       DataLoader.get_task_status_by_name task_id (DataLoader.load self).2
       = ((DataLoader.load self).2, Ok None).
Proof.
  intros Hempty.
  assert (Htasks : DataLoader._data_loader_tasks (DataLoader.load self).2
                   = DataLoader._data_loader_tasks self).
  { rewrite load_tasks, Hempty, elements_empty. simpl.
    rewrite zip_with_nil_r. apply app_nil_r. }
  split; [rewrite load_task_ids, Hempty; reflexivity|].
  split; [exact Htasks|].
  intros task_id Hunknown. unfold DataLoader.get_task_status_by_name.
  rewrite Htasks, find_none_2; [reflexivity|].
  intros task Htask. apply bool_decide_eq_false_2. exact (Hunknown task Htask).
Qed.

Lemma put_logged_logged what source data self :
  DataLoader.logged (DataLoader.put_logged what source data self).1
  = DataLoader.logged self
    ++ [{| DataLoader.level := DataLoader.DEBUG;
           DataLoader.msg := what;
           DataLoader.arg := DataLoader.ArgInt (length data) |}].
Proof.
  unfold DataLoader.put_logged, bind, DataLoader.modify, ret.
  destruct DataLoader.debug_enabled; reflexivity.
Qed.

Lemma for_each_put_logged_logged what source : forall chunks self,
  DataLoader.logged
    (for_each (DataLoader.put_logged what source) chunks self).1
  = DataLoader.logged self
    ++ ((fun data =>
           {| DataLoader.level := DataLoader.DEBUG;
              DataLoader.msg := what;
              DataLoader.arg := DataLoader.ArgInt (length data) |})
          <$> chunks).
Proof.
  induction chunks as [|chunk chunks IH]; intros self.
  - simpl. rewrite app_nil_r. reflexivity.
  - rewrite for_each_cons, fmap_cons.
    pose proof (put_logged_outcome what source chunk self) as Hok.
    pose proof (put_logged_logged what source chunk self) as Hlog.
    destruct (DataLoader.put_logged what source chunk self) as [s1 [[]|e]];
      simpl in Hok, Hlog; [|discriminate].
    specialize (IH s1).
    destruct (for_each (DataLoader.put_logged what source) chunks s1)
      as [s2 [units|e]]; simpl in IH |- *;
      rewrite IH, Hlog, <- app_assoc; reflexivity.
Qed.

(** X13. The body of a task logs one [DEBUG] record for every data frame it
    hands to the sink, each with the number of rows of the frame, and after
    them the [INFO] record that the load of the source finished exactly
    when the body returns: a body that raises logs no such record. *)
Theorem finished_is_logged_only_on_success
    (source : DataLoader.DataLoaderSource) (self : DataLoader.t) :
  exists debug,
    DataLoader.logged (DataLoader.__read_and_put_data source self).1
    = DataLoader.logged self ++ debug
      ++ match DataLoader.task_outcome source with
         | Ok _ =>
             [{| DataLoader.level := DataLoader.INFO;
                 DataLoader.msg :=
                   "Finished the data load for source with the following configuration: %s";
                 DataLoader.arg :=
                   DataLoader.ArgConfig (DataLoader.config source) |}]
         | Raise _ => []
         end
    /\ DataLoader.level <$> debug
       = (fun _ => DataLoader.DEBUG) <$> delivered source
    /\ DataLoader.arg <$> debug
       = (fun data => DataLoader.ArgInt (length data)) <$> delivered source.
Proof.
  unfold DataLoader.__read_and_put_data, DataLoader.task_outcome, delivered,
    bind at 1, DataLoader.lift.
  destruct (DataLoader.__read_data _ _ _)
    as [[data|chunks failure|type_repr]|e].
  - unfold bind at 1.
    pose proof (put_logged_outcome
                  "Data frame of size: %s has been loaded into memory. Beginning persistence process."
                  source data self) as Hok.
    pose proof (put_logged_logged
                  "Data frame of size: %s has been loaded into memory. Beginning persistence process."
                  source data self) as Hlog.
    destruct (DataLoader.put_logged _ source data self) as [s1 [[]|e]];
      simpl in Hok, Hlog; [|discriminate].
    eexists [_]. simpl. rewrite Hlog, <- app_assoc.
    repeat split; reflexivity.
  - unfold bind at 1 2.
    pose proof (for_each_put_logged_logged
                  "Chunk of size: %s has been loaded into memory. Beginning persistence process."
                  source chunks self) as Hlog.
    pose proof (for_each_total
                  (DataLoader.put_logged
                     "Chunk of size: %s has been loaded into memory. Beginning persistence process."
                     source)
                  (fun _ => tt)
                  (fun data s => put_logged_outcome _ source data s)
                  chunks self) as Hok.
    destruct (for_each _ chunks self) as [s1 [units|e]];
      simpl in Hlog, Hok; [|discriminate].
    exists ((fun data =>
               {| DataLoader.level := DataLoader.DEBUG;
                  DataLoader.msg :=
                    "Chunk of size: %s has been loaded into memory. Beginning persistence process.";
                  DataLoader.arg := DataLoader.ArgInt (length data) |})
              <$> chunks).
    split; [|split; rewrite <- list_fmap_compose; reflexivity].
    destruct failure as [exc|]; simpl.
    + rewrite app_nil_r. exact Hlog.
    + rewrite Hlog, <- app_assoc. reflexivity.
  - exists []. simpl. rewrite app_nil_r. repeat split; reflexivity.
  - exists []. simpl. rewrite app_nil_r. repeat split; reflexivity.
Qed.
End Ingestion.

(** *** The loader at work on the small instance *)
#[local] Existing Instance DemoLoader.surroundings.

Example DemoLoader_registered_once :
  size (DataLoader._data_loader_sources DemoLoader.registered) = 2
  /\ DataLoader.level <$> DataLoader.logged DemoLoader.registered
     = [DataLoader.WARNING].
Proof. vm_compute. split; reflexivity. Qed.

Example DemoLoader_task_ids :
  (DataLoader.load DemoLoader.registered).1 = {[ "uuid-0"; "uuid-1" ]}.
Proof. vm_compute. reflexivity. Qed.

Example DemoLoader_statuses_after_load :
  DataLoader.getStatus DemoLoader.loaded "uuid-0" = DataLoader.Running
  /\ DataLoader.getStatus DemoLoader.loaded "uuid-1" = DataLoader.Running
  /\ DataLoader.getStatus DemoLoader.loaded "uuid-2" = DataLoader.Unknown.
Proof. vm_compute. repeat split; reflexivity. Qed.

(** One source fails, the other succeeds, and nothing reaches the caller of
    [load]; the sink of the source that succeeded received its rows. *)
Example DemoLoader_failure_isolated :
  DataLoader.Task.source <$> DataLoader._data_loader_tasks DemoLoader.loaded
  = [DemoLoader.missing_source; DemoLoader.rows_source]
  /\ (DataLoader.get_task_status_by_name "uuid-0" DemoLoader.finished).2
     = Ok (Some "Task failed with exception: [Errno 2] No such file or directory. For traceback, check the logs.")
  /\ (DataLoader.get_task_status_by_name "uuid-1" DemoLoader.finished).2
     = Ok (Some "Task completed successfully")
  /\ DataLoader.sinks DemoLoader.finished !! DemoLoader.rows_source
     = Some [DemoLoader.rows]
  /\ DataLoader.sinks DemoLoader.finished !! DemoLoader.missing_source = None.
Proof. vm_compute. repeat split; reflexivity. Qed.

(** *** The further properties on the small instances *)

Lemma evaluate_self_app_witness :
  (Online.evaluate_self Demo.source_node (["a"] ++ ["a"]) false
     Demo.stocked_world).2
  = Ok [new_EvaluationResult {| value := [1; 0]%Z |};
        new_EvaluationResult {| value := [1; 0]%Z |}].
Proof.
  rewrite (evaluate_self_app Demo.source_node ["a"] ["a"] false
             Demo.stocked_world);
    reflexivity.
Defined.

Lemma source_batch_loads_until_first_missing_witness :
  Online.parents Demo.source_node = []
  /\ Online._should_return_default_vector Demo.source_node ["a"; "b"; "c"]
       false = false
  /\ Online.evaluate_self Demo.source_node ["a"; "b"; "c"] false
       Demo.stocked_world
     = (record_events [StorageLoad "colour/a"; StorageLoad "colour/b"]
          Demo.stocked_world,
        Raise MissingStoredResultError).
Proof.
  split; [reflexivity|]. split; [reflexivity|].
  rewrite (source_batch_loads_until_first_missing
             Demo.source_node ["a"; "b"; "c"] false Demo.stocked_world);
    reflexivity.
Defined.

Lemma evaluate_self_keeps_storage_witness :
  Forall pure_parent (Online.parents Demo.embedding_node)
  /\ storage
       (Online.evaluate_self Demo.embedding_node ["a"; "b"] false
          Demo.stocked_world).1
     = storage Demo.stocked_world.
Proof.
  split; [constructor; [exact Demo_blue_parent_pure|constructor]|].
  apply (evaluate_self_keeps_storage
           Demo.embedding_node ["a"; "b"] false Demo.stocked_world).
  constructor; [exact Demo_blue_parent_pure|constructor].
Defined.

Lemma batch_outcome_is_collected_single_outcomes_witness :
  Online._should_return_default_vector Demo.source_node ["b"; "a"] false
  = false
  /\ Forall pure_parent (Online.parents Demo.source_node)
  /\ (Online.evaluate_self Demo.source_node ["b"; "a"] false
        Demo.stocked_world).2
     = collect
         [Raise MissingStoredResultError;
          Ok (new_EvaluationResult {| value := [1; 0]%Z |})].
Proof.
  split; [reflexivity|]. split; [constructor|].
  rewrite (batch_outcome_is_collected_single_outcomes
             Demo.source_node ["b"; "a"] false Demo.stocked_world);
    [reflexivity|reflexivity|constructor].
Defined.

(** The three-schema batch on the picky node stops at ["b"]: the parent was
    called for ["a"] and ["b"], and not for ["c"]. *)
Example Demo_picky_batch_stops_at_first_raise :
  Online.evaluate_self Demo.picky_node ["a"; "b"; "c"] false Demo.empty_world
  = ({| storage := ∅;
        events := [ParentEvaluation 0 "a"; ParentEvaluation 0 "b"] |},
     Raise (TypeError "unexpected value")).
Proof. reflexivity. Qed.

Lemma parent_called_once_per_schema_in_order_witness :
  Online.parents Demo.picky_node = [Demo.picky_parent]
  /\ exists i schema wi results,
       ["a"; "b"; "c"] !! i = Some schema
       /\ for_each
            (fun schema =>
               Online.evaluate_self_single Demo.picky_node schema false)
            (take i ["a"; "b"; "c"]) Demo.empty_world = (wi, Ok results)
       /\ OnlineNode.evaluate_next_single Demo.picky_parent schema false
            (record_event (ParentEvaluation 0 schema) wi)
          = ({| storage := ∅;
                events := [ParentEvaluation 0 "a"; ParentEvaluation 0 "b"] |},
             Raise (TypeError "unexpected value"))
       /\ [ParentEvaluation 0 "a"; ParentEvaluation 0 "b"]
          = events Demo.empty_world
            ++ (ParentEvaluation 0 <$> take (S i) ["a"; "b"; "c"]).
Proof.
  split; [reflexivity|].
  pose proof (parent_called_once_per_schema_in_order
                Demo.picky_node Demo.picky_parent [] ["a"; "b"; "c"] false
                Demo.empty_world) as Hcalls.
  rewrite Demo_picky_batch_stops_at_first_raise in Hcalls.
  apply Hcalls.
  - reflexivity.
  - reflexivity.
  - intros schema w0. simpl. destruct (decide _); reflexivity.
Defined.

Lemma loaded_ids_are_running_witness :
  "uuid-1" ∈ (DataLoader.load DemoLoader.registered).1
  /\ DataLoader.getStatus (DataLoader.load DemoLoader.registered).2 "uuid-1"
     = DataLoader.Running
  /\ (DataLoader.get_task_status_by_name "uuid-1"
        (DataLoader.load DemoLoader.registered).2).2
     = Ok (Some "Task is still running").
Proof.
  assert (Hin : "uuid-1" ∈ (DataLoader.load DemoLoader.registered).1).
  { rewrite DemoLoader_task_ids. set_solver. }
  split; [exact Hin|].
  apply (loaded_ids_are_running DemoLoader.registered "uuid-1");
    [|exact Hin].
  intros task Htask. vm_compute in Htask. apply elem_of_nil in Htask.
  destruct Htask.
Defined.

Lemma status_after_run_reports_the_read_witness :
  DataLoader._data_loader_tasks DemoLoader.loaded !! 0
  = Some (DataLoader.create_task DemoLoader.missing_source "uuid-0")
  /\ (DataLoader.get_task_status_by_name "uuid-0"
        (DataLoader.run_task 0 DemoLoader.loaded)).2
     = Ok (Some "Task failed with exception: [Errno 2] No such file or directory. For traceback, check the logs.").
Proof.
  split; [vm_compute; reflexivity|].
  apply (status_after_run_reports_the_read 0 DemoLoader.loaded
           (DataLoader.create_task DemoLoader.missing_source "uuid-0")).
  - vm_compute. reflexivity.
  - reflexivity.
  - intros j other Hj. lia.
Defined.

Lemma load_without_sources_does_nothing_witness :
  DataLoader._data_loader_sources DemoLoader.fresh = ∅
  /\ (DataLoader.load DemoLoader.fresh).1 = ∅
  /\ DataLoader._data_loader_tasks (DataLoader.load DemoLoader.fresh).2
     = DataLoader._data_loader_tasks DemoLoader.fresh.
Proof.
  split; [reflexivity|].
  destruct (load_without_sources_does_nothing DemoLoader.fresh eq_refl)
    as (Hids & Htasks & _).
  split; [exact Hids|exact Htasks].
Defined.
